(** * plover_console_ui: command nodes and paper tape

    A shallow embedding of [plover_console_ui/commands.py] and
    [plover_console_ui/tape.py].

    Python text is modelled by [string]; every [ascii] stands for one
    character (the development covers ASCII text).  Python dictionaries are
    [gmap]s, Python sets are [gset]s, lists updated by index use stdpp's list
    lookup and insert with the out-of-range [IndexError] written out.
    Exceptions are values of [exn]; a method is a computation in the monad
    [M], which threads the mutable world and may stop with an exception. *)

From Stdlib Require Import ZArith Ascii String List.
From stdpp Require Import base option list gmap strings fin_maps fin_sets.

Local Open Scope string_scope.

(** ** Python strings *)

Module Py.

(** [sep.join(parts)] *)
Definition join (sep : string) (parts : list string) : string :=
  String.concat sep parts.

Definition is_lower (c : ascii) : bool :=
  (97 <=? nat_of_ascii c)%nat && (nat_of_ascii c <=? 122)%nat.

Definition is_upper (c : ascii) : bool :=
  (65 <=? nat_of_ascii c)%nat && (nat_of_ascii c <=? 90)%nat.

Definition upper_char (c : ascii) : ascii :=
  if is_lower c then ascii_of_nat (nat_of_ascii c - 32) else c.

Definition lower_char (c : ascii) : ascii :=
  if is_upper c then ascii_of_nat (nat_of_ascii c + 32) else c.

Fixpoint lower (s : string) : string :=
  match s with
  | EmptyString => EmptyString
  | String c r => String (lower_char c) (lower r)
  end.

(** [s.capitalize()]: first character upper-cased, the rest lower-cased. *)
Definition capitalize (s : string) : string :=
  match s with
  | EmptyString => EmptyString
  | String c r => String (upper_char c) (lower r)
  end.

(** [c * n] for a one-character string [c]; empty when [n <= 0]. *)
Definition repeat_char (c : ascii) (n : Z) : string :=
  string_of_list_ascii (repeat c (Z.to_nat n)).

Fixpoint lstrip (ch : ascii) (s : list ascii) : list ascii :=
  match s with
  | c :: r => if Ascii.eqb c ch then lstrip ch r else s
  | [] => []
  end.

(** [s.strip(ch)] for a single character [ch]: leading and trailing
    occurrences are removed. *)
Definition strip (ch : ascii) (s : string) : string :=
  string_of_list_ascii
    (rev (lstrip ch (rev (lstrip ch (list_ascii_of_string s))))).

(** [str(x)] inside an f-string, for a value that is [None] or a string. *)
Definition str (x : option string) : string :=
  match x with
  | Some s => s
  | None => "None"
  end.

(** Truth value of a value that is [None] or a string. *)
Definition truthy (x : option string) : bool :=
  match x with
  | Some (String _ _) => true
  | _ => false
  end.

End Py.

(** ** Exceptions and results *)

Inductive exn : Type :=
| AttributeError (attr : string)
| KeyError (key : string)
| IndexError
| TypeError
| InvalidColor (spec : string).

(** [LookupError] is the common base class of [KeyError] and [IndexError]. *)
Definition is_LookupError (e : exn) : bool :=
  match e with
  | KeyError _ | IndexError => true
  | _ => false
  end.

Inductive outcome (A : Type) : Type :=
| Return (a : A)
| Raise (e : exn).
Arguments Return {A} a.
Arguments Raise {A} e.

(** ** Values stored in the engine configuration *)

Inductive Value : Type :=
| VNone
| VBool (b : bool)
| VStr (s : string).

Definition value_of_name (x : option string) : Value :=
  match x with
  | Some s => VStr s
  | None => VNone
  end.

(** ** External collaborators

    The host application, the toolkit and the sibling modules
    [.presentation], [.suggestions] are outside [commands.py]; what the
    commands call is collected in one interface. *)

Class Host : Type := {
  (** style object of the toolkit *)
  Style : Type;
  (** [style_colored(color)]: [None] when it throws on a bad color *)
  style_colored : string -> option Style;
  (** state of the layout panes *)
  Layout : Type;
  (** [layout.toggle_tape()] and [layout.toggle_suggestions()] *)
  toggle_tape : Layout -> bool * Layout;
  toggle_suggestions : Layout -> bool * Layout;
  (** [unescape_translation(text)] *)
  unescape_translation : string -> string;
  (** [format_suggestions(engine.get_suggestions(lookup))] *)
  Suggestion : Type;
  get_suggestions : string -> list Suggestion;
  format_suggestions : list Suggestion -> string;
  (** [config_option.getter(engine.config, name)] and
      [config_option.setter(engine.config, name, value)] *)
  option_getter : gmap string Value -> string -> string;
  option_setter : gmap string Value -> string -> string -> gmap string Value;
}.

(** The plugin registry: [list_plugins(kind)] gives the plugin names in
    registry order, [get_plugin("machine", name).obj.get_option_info()]
    the options of a machine. *)
Record ConfigOption : Type := {
  opt_name : string;
  opt_default : string;
}.

Record Registry : Type := {
  list_plugins : string -> list string;
  get_option_info : string -> list ConfigOption;
}.

(** ** The mutable world and the method monad *)

Section Commands.

Context `{Host}.

Record World : Type := mkWorld {
  (** lines passed to the output sink [layout.output_to_console], oldest first *)
  console : list string;
  (** [engine.config] *)
  engine_config : gmap string Value;
  (** [engine.output] *)
  engine_output : bool;
  (** number of calls of [engine.reset_machine] *)
  machine_resets : nat;
  (** pane state behind the togglers *)
  layout : Layout;
  (** [get_app().style] *)
  app_style : Style;
  (** argument of [get_app().exit], once called *)
  app_exit : option Z;
  (** the console's own section of the configuration file *)
  config_store : gmap string string;
}.

Definition M (A : Type) : Type := World -> outcome A * World.

Definition ret {A} (a : A) : M A := fun w => (Return a, w).

Definition raise {A} (e : exn) : M A := fun w => (Raise e, w).

Definition bind {A B} (c : M A) (k : A -> M B) : M B :=
  fun w =>
    match c w with
    | (Return a, w') => k a w'
    | (Raise e, w') => (Raise e, w')
    end.

#[local] Notation "'let!' x := c 'in' k" := (bind c (fun x => k))
  (at level 10, x name, c at level 100, k at level 200).
#[local] Notation "c >> k" := (bind c (fun _ => k))
  (at level 65, right associativity).

(** [for x in xs: body(x)] *)
Fixpoint for_each {A} (xs : list A) (body : A -> M unit) : M unit :=
  match xs with
  | [] => ret tt
  | x :: rest => body x >> for_each rest body
  end.

Definition modify (f : World -> World) : M unit := fun w => (Return tt, f w).

Definition get {A} (f : World -> A) : M A := fun w => (Return (f w), w).

Definition emit_line (line : string) (w : World) : World :=
  mkWorld (console w ++ [line])%list (engine_config w) (engine_output w)
    (machine_resets w) (layout w) (app_style w) (app_exit w) (config_store w).

(** [engine.config = update]: the engine merges the partial update. *)
Definition update_engine_config (update : gmap string Value) (w : World) : World :=
  mkWorld (console w) (update ∪ engine_config w) (engine_output w)
    (machine_resets w) (layout w) (app_style w) (app_exit w) (config_store w).

Definition replace_engine_config (cfg : gmap string Value) (w : World) : World :=
  mkWorld (console w) cfg (engine_output w)
    (machine_resets w) (layout w) (app_style w) (app_exit w) (config_store w).

Definition set_engine_output (b : bool) (w : World) : World :=
  mkWorld (console w) (engine_config w) b
    (machine_resets w) (layout w) (app_style w) (app_exit w) (config_store w).

Definition reset_machine (w : World) : World :=
  mkWorld (console w) (engine_config w) (engine_output w)
    (S (machine_resets w)) (layout w) (app_style w) (app_exit w) (config_store w).

Definition set_layout (l : Layout) (w : World) : World :=
  mkWorld (console w) (engine_config w) (engine_output w)
    (machine_resets w) l (app_style w) (app_exit w) (config_store w).

Definition set_app_style (s : Style) (w : World) : World :=
  mkWorld (console w) (engine_config w) (engine_output w)
    (machine_resets w) (layout w) s (app_exit w) (config_store w).

Definition set_app_exit (code : Z) (w : World) : World :=
  mkWorld (console w) (engine_config w) (engine_output w)
    (machine_resets w) (layout w) (app_style w) (Some code) (config_store w).

(** Modelled from the spec: [set(config, key, value)] of the sibling module
    [.config] is not part of the sources; the spec describes the config store
    as a key/value store whose [set] leaves the value under the key. *)
Definition config_set (key value : string) (w : World) : World :=
  mkWorld (console w) (engine_config w) (engine_output w)
    (machine_resets w) (layout w) (app_style w) (app_exit w)
    (<[key := value]> (config_store w)).

(** Calling a toggler of the layout: the pane state changes and the new
    visibility is returned. *)
Definition call_toggler (toggler : Layout -> bool * Layout) : M bool :=
  fun w => let '(show, l) := toggler (layout w) in (Return show, set_layout l w).

(** ** Command objects *)

Inductive PyClass : Type :=
| cCommand
| cUiCommands
| cColorCommand
| cExitCommand
| cLookupCommand
| cToggleTapeCommand
| cToggleSuggestionsCommand
| cResetMachineCommand
| cToggleOutputCommand
| cMachineCommand
| cSystemCommand
| cSystemSetterCommand
| cMachineOptionsCommand
| cMachineSetterCommand
| cConfigureCommand.

(** An object of a class whose [__init__] runs [Command.__init__] has the
    attributes [name], [output] and [sub_commands]; [doc] is its [__doc__]
    (the class docstring, or the one the constructor stores on the instance).
    [MachineOptionSetterCommand.__init__] stores only [__doc__], [getter] and
    [setter]: such an object is an [OptionSetter], which carries the option
    the accessors are bound to. *)
#[warnings="-register-all"]
Inductive Command : Type :=
| Node (cls : PyClass) (name : option string) (doc : option string)
       (sub_commands : list Command)
| OptionSetter (doc : option string) (option : string).

Definition attr_name (self : Command) : M (option string) :=
  match self with
  | Node _ name _ _ => ret name
  | OptionSetter _ _ => raise (AttributeError "name")
  end.

Definition attr_sub_commands (self : Command) : M (list Command) :=
  match self with
  | Node _ _ _ subs => ret subs
  | OptionSetter _ _ => raise (AttributeError "sub_commands")
  end.

Definition attr_doc (self : Command) : option string :=
  match self with
  | Node _ _ doc _ => doc
  | OptionSetter doc _ => doc
  end.

(** [self.output]: the attribute lookup, which yields the sink. *)
Definition attr_output (self : Command) : M (string -> M unit) :=
  match self with
  | Node _ _ _ _ => ret (fun line => modify (emit_line line))
  | OptionSetter _ _ => raise (AttributeError "output")
  end.

(** [self.output(line)] where computing [line] cannot fail. *)
Definition output (self : Command) (line : string) : M unit :=
  let! out := attr_output self in out line.

(** *** Constructors, one per class *)

Definition UiCommands (sub_commands : list Command) : Command :=
  Node cUiCommands (Some "ui") (Some "commands for user interface") sub_commands.

Definition ColorCommand : Command :=
  Node cColorCommand (Some "color")
    (Some "sets foreground color of console (web colors or hexes should work)") [].

Definition ExitCommand : Command :=
  Node cExitCommand (Some "exit") (Some "exits plover") [].

Definition LookupCommand : Command :=
  Node cLookupCommand (Some "lookup") (Some "looks up words in current dictionaries") [].

Definition ToggleTapeCommand : Command :=
  Node cToggleTapeCommand (Some "tape") (Some "turns paper tape pane on/off") [].

Definition ToggleSuggestionsCommand : Command :=
  Node cToggleSuggestionsCommand (Some "suggestions")
    (Some "turns suggestions pane on/off") [].

Definition ResetMachineCommand : Command :=
  Node cResetMachineCommand (Some "reset") (Some "reconnects current machine") [].

Definition ToggleOutputCommand : Command :=
  Node cToggleOutputCommand (Some "output") (Some "toggles plover output on/off") [].

Definition SystemSetterCommand (system_name : string) : Command :=
  Node cSystemSetterCommand (Some system_name)
    (Some ("sets system to " +:+ system_name)) [].

Definition MachineOptionSetterCommand (config_option : ConfigOption) : Command :=
  OptionSetter
    (Some ("setting: " +:+ opt_name config_option +:+ " - default: "
           +:+ opt_default config_option))
    (opt_name config_option).

Definition MachineOptionsCommand (registry : Registry) (machine_name : string)
  : Command :=
  Node cMachineOptionsCommand (Some "options") (Some "machine options")
    (map MachineOptionSetterCommand (get_option_info registry machine_name)).

Definition MachineSetterCommand (registry : Registry) (machine_name : string)
  : Command :=
  Node cMachineSetterCommand (Some machine_name)
    (Some ("sets machine to " +:+ machine_name))
    [MachineOptionsCommand registry machine_name].

Definition MachineCommand (registry : Registry) : Command :=
  Node cMachineCommand (Some "machine") (Some "machine commands")
    (map (MachineSetterCommand registry) (list_plugins registry "machine")).

Definition SystemCommand (registry : Registry) : Command :=
  Node cSystemCommand (Some "system") (Some "system commands")
    (map SystemSetterCommand (list_plugins registry "system")).

Definition ConfigureCommand (sub_commands : list Command) : Command :=
  Node cConfigureCommand (Some "configure") (Some "configuration commands")
    sub_commands.

Definition build_commands (registry : Registry) : Command :=
  Node cCommand None None
    [ ConfigureCommand [MachineCommand registry; SystemCommand registry];
      LookupCommand;
      ResetMachineCommand;
      ToggleOutputCommand;
      UiCommands [ToggleTapeCommand; ToggleSuggestionsCommand; ColorCommand];
      ExitCommand ].

(** ** The [handle] methods *)

(** [Command.handle], inherited by every class that does not override it. *)
Definition Command_handle (self : Command) (words : list string) : M bool :=
  let! name := attr_name self in
  (if Py.truthy name then
     output self (Py.capitalize (Py.str name)) >>
     output self (Py.join "" (map (fun _ => "-") (list_ascii_of_string (Py.str name))))
   else ret tt) >>
  match words with
  | _ :: _ =>
      output self ("Unsupported command: " +:+ Py.join " " words) >>
      ret false
  | [] =>
      let! subs := attr_sub_commands self in
      for_each subs (fun sc =>
        let! out := attr_output self in
        let! sc_name := attr_name sc in
        out (Py.str sc_name +:+ " - " +:+ Py.str (attr_doc sc))) >>
      ret false
  end.

Definition ColorCommand_handle (self : Command) (words : list string) : M bool :=
  match words with
  | color :: _ =>
      match style_colored color with
      | None => raise (InvalidColor color)
      | Some style =>
          modify (set_app_style style) >>
          modify (config_set "fg" color) >>
          ret true
      end
  | [] => ret false
  end.

Definition ExitCommand_handle (self : Command) (words : list string) : M bool :=
  modify (set_app_exit 0) >> ret true.

Definition LookupCommand_handle (self : Command) (words : list string) : M bool :=
  match words with
  | [] => ret false
  | _ :: _ =>
      let text := Py.join " " words in
      let lookup := unescape_translation text in
      let suggestions := format_suggestions (get_suggestions lookup) in
      (match suggestions with
       | String _ _ => output self suggestions
       | EmptyString => output self ("'" +:+ lookup +:+ "' not found")
       end) >>
      ret true
  end.

Definition show_bool (b : bool) : string := if b then "True" else "False".

Definition ToggleTapeCommand_handle (self : Command) (words : list string) : M bool :=
  let! show := call_toggler toggle_tape in
  modify (update_engine_config {[ "show_stroke_display" := VBool show ]}) >>
  output self ("Show tape: " +:+ show_bool show) >>
  ret true.

Definition ToggleSuggestionsCommand_handle (self : Command) (words : list string)
  : M bool :=
  let! show := call_toggler toggle_suggestions in
  modify (update_engine_config {[ "show_suggestions_display" := VBool show ]}) >>
  output self ("Show suggestions: " +:+ show_bool show) >>
  ret true.

Definition ResetMachineCommand_handle (self : Command) (words : list string)
  : M bool :=
  output self "Resetting machine..." >>
  modify reset_machine >>
  ret true.

Definition ToggleOutputCommand_handle (self : Command) (words : list string)
  : M bool :=
  let! on := get engine_output in
  (if on then modify (set_engine_output false)
   else modify (set_engine_output true)) >>
  let! on' := get engine_output in
  let state := if on' then "Enabled" else "Disabled" in
  output self ("Output: " +:+ state) >>
  ret true.

Definition SystemSetterCommand_handle (self : Command) (words : list string)
  : M bool :=
  let! out := attr_output self in
  let! name := attr_name self in
  out ("Setting system to " +:+ Py.str name) >>
  let! name := attr_name self in
  modify (update_engine_config {[ "system_name" := value_of_name name ]}) >>
  ret true.

Definition MachineOptionSetterCommand_handle (option : string)
  (self : Command) (words : list string) : M bool :=
  let! out := attr_output self in
  let! current := get (fun w => option_getter (engine_config w) option) in
  out ("current: " +:+ current) >>
  modify (fun w =>
    replace_engine_config
      (option_setter (engine_config w) option (Py.join "" words)) w) >>
  ret true.

Definition MachineSetterCommand_handle (self : Command) (words : list string)
  : M bool :=
  let! out := attr_output self in
  let! name := attr_name self in
  out ("Setting machine to " +:+ Py.str name) >>
  let! name := attr_name self in
  modify (update_engine_config {[ "machine_type" := value_of_name name ]}) >>
  ret false.

(** Method resolution: the class of the object selects the [handle] that
    runs. *)
Definition handle (self : Command) (words : list string) : M bool :=
  match self with
  | OptionSetter _ option => MachineOptionSetterCommand_handle option self words
  | Node cls _ _ _ =>
      match cls with
      | cColorCommand => ColorCommand_handle self words
      | cExitCommand => ExitCommand_handle self words
      | cLookupCommand => LookupCommand_handle self words
      | cToggleTapeCommand => ToggleTapeCommand_handle self words
      | cToggleSuggestionsCommand => ToggleSuggestionsCommand_handle self words
      | cResetMachineCommand => ResetMachineCommand_handle self words
      | cToggleOutputCommand => ToggleOutputCommand_handle self words
      | cSystemSetterCommand => SystemSetterCommand_handle self words
      | cMachineSetterCommand => MachineSetterCommand_handle self words
      | cCommand | cUiCommands | cMachineCommand | cSystemCommand
      | cMachineOptionsCommand | cConfigureCommand => Command_handle self words
      end
  end.

(** The classes that inherit [Command.handle]. *)
Definition inherits_handle (cls : PyClass) : bool :=
  match cls with
  | cCommand | cUiCommands | cMachineCommand | cSystemCommand
  | cMachineOptionsCommand | cConfigureCommand => true
  | _ => false
  end.

End Commands.

(** ** The paper tape ([tape.py]) *)

(** The active steno system, [plover.system]: its key names in order, the
    mapping from keys to number labels and the position of every key
    identifier.  It belongs to the host and is a parameter here. *)
Record System : Type := {
  KEYS : list string;
  NUMBERS : gmap string string;
  KEY_ORDER : gmap string nat;
}.

(** The attributes of a [Tape] object.  [_all_keys] and [_all_keys_filler]
    are [None] after [__init__]; [_numbers] does not exist before the first
    system change ([None] stands for the missing attribute).  [width] is
    [container.width] and [buffer] holds the rows of [body.buffer]. *)
Record Tape : Type := mkTape {
  _all_keys : option string;
  _all_keys_filler : option (list string);
  _numbers : option (gset string);
  width : option nat;
  buffer : list string;
}.

Definition Tape_init : Tape := mkTape None None None None [].

Section TapeMethods.

(** [wcwidth(c)] of the [wcwidth] package: the number of terminal columns of
    a character ([-1] for a control character, [0] for a combining one). *)
Variable wcwidth : ascii -> Z.

Variable system : System.

Definition on_config_changed (update : gmap string Value) (self : Tape) : Tape :=
  if bool_decide ("system_name" ∈ dom update) then
    let all_keys := Py.join "" (map (Py.strip "-") (KEYS system)) in
    mkTape
      (Some all_keys)
      (Some (map (fun k => Py.repeat_char " " (wcwidth k))
                 (list_ascii_of_string all_keys)))
      (Some (map_img (NUMBERS system)))
      (Some (String.length all_keys + 1))
      (buffer self)
  else self.

(** [any(key in self._numbers for key in keys)]: the attribute is read only
    when there is a key to test. *)
Definition any_number (self : Tape) (keys : list string) : outcome bool :=
  match keys with
  | [] => Return false
  | _ :: _ =>
      match _numbers self with
      | None => Raise (AttributeError "_numbers")
      | Some numbers => Return (existsb (fun key => bool_decide (key ∈ numbers)) keys)
      end
  end.

(** The loop [for key in keys: ...] over the local list [text]. *)
Fixpoint mark_keys (self : Tape) (keys : list string) (text : list string)
  : outcome (list string) :=
  match keys with
  | [] => Return text
  | key :: rest =>
      match KEY_ORDER system !! key with
      | None => Raise (KeyError key)
      | Some index =>
          match _all_keys self with
          | None => Raise TypeError
          | Some all_keys =>
              match String.get index all_keys with
              | None => Raise IndexError
              | Some glyph =>
                  if decide (index < length text)
                  then mark_keys self rest (<[index := String glyph ""]> text)
                  else Raise IndexError
              end
          end
      end
  end.

(** Modelled from the spec: [output_to_buffer(buffer, text)] of the sibling
    module [.output] is not part of the sources; the spec has the finished
    row appended to the display buffer. *)
Definition output_to_buffer (text : string) (self : Tape) : Tape :=
  mkTape (_all_keys self) (_all_keys_filler self) (_numbers self) (width self)
    (buffer self ++ [text])%list.

Definition on_stroked (steno_keys : list string) (self : Tape)
  : outcome unit * Tape :=
  match _all_keys_filler self with
  | None => (Raise TypeError, self)
  | Some filler =>
      let text := filler in
      let keys := steno_keys in
      match any_number self keys with
      | Raise e => (Raise e, self)
      | Return numeric =>
          let keys := if numeric then (keys ++ ["#"])%list else keys in
          match mark_keys self keys text with
          | Raise e => (Raise e, self)
          | Return text => (Return tt, output_to_buffer (Py.join "" text) self)
          end
      end
  end.

End TapeMethods.

(** ** Vocabulary of the statements *)

Section Vocabulary.

Context `{Host}.

(** The world after the sink has received [lines], in order. *)
Definition emit_lines (lines : list string) (w : World) : World :=
  fold_left (fun w line => emit_line line w) lines w.

(** The header [Command.handle] prints for a node that has a name. *)
Definition header (name : option string) : list string :=
  if Py.truthy name then
    [Py.capitalize (Py.str name); string_of_list_ascii (repeat "-"%char (String.length (Py.str name)))]
  else [].

(** The line of the help listing for one child, when the child has the
    attributes of a command. *)
Definition listing_line (sc : Command) : option string :=
  match sc with
  | Node _ name doc _ => Some (Py.str name +:+ " - " +:+ Py.str doc)
  | OptionSetter _ _ => None
  end.

Definition is_node (c : Command) : bool :=
  match c with
  | Node _ _ _ _ => true
  | OptionSetter _ _ => false
  end.

Definition class_of (c : Command) : option PyClass :=
  match c with
  | Node cls _ _ _ => Some cls
  | OptionSetter _ _ => None
  end.

Definition name_of (c : Command) : option string :=
  match c with
  | Node _ name _ _ => name
  | OptionSetter _ _ => None
  end.

Definition children_of (c : Command) : list Command :=
  match c with
  | Node _ _ _ subs => subs
  | OptionSetter _ _ => []
  end.

(** [sc.name == token] for a child that has a name. *)
Definition has_name (token : string) (sc : Command) : bool :=
  match sc with
  | Node _ (Some name) _ _ => bool_decide (name = token)
  | _ => false
  end.

(** The first child, in declared order, whose name is the token. *)
Definition child_named (token : string) (subs : list Command) : option Command :=
  List.find (has_name token) subs.

(** The prefix dispatch of the dispatcher description: when the first token
    names a child, [handle] behaves as that child's [handle] on the
    remaining tokens. *)
Definition delegates (self : Command) (words : list string) (w : World) : Prop :=
  match words with
  | token :: rest =>
      match child_named token (children_of self) with
      | Some child => handle self words w = handle child rest w
      | None => True
      end
  | [] => True
  end.

(** A toggler flips the visibility [shown] of its pane and returns the new
    visibility. *)
Definition flips (shown : Layout -> bool) (toggler : Layout -> bool * Layout) : Prop :=
  forall l, fst (toggler l) = negb (shown l) /\ shown (snd (toggler l)) = negb (shown l).

(** Toggling twice gives back the pane state. *)
Definition involutive (toggler : Layout -> bool * Layout) : Prop :=
  forall l, snd (toggler (snd (toggler l))) = l.

End Vocabulary.

(** A small host and registry on which the commands can be run. *)

Definition known_colors : list string := ["green"; "red"; "#ff0000"].

#[warnings="-non-reversible-notation"]
Definition sample_host : Host := {|
  Style := string;
  style_colored color :=
    if bool_decide (color ∈ known_colors) then Some ("fg:" +:+ color) else None;
  Layout := bool * bool;
  toggle_tape l := (negb (fst l), (negb (fst l), snd l));
  toggle_suggestions l := (negb (snd l), (fst l, negb (snd l)));
  unescape_translation text := text;
  Suggestion := string;
  get_suggestions _ := [];
  format_suggestions l := Py.join ", " l;
  option_getter cfg name :=
    match cfg !! name with
    | Some (VStr s) => s
    | _ => ""
    end;
  option_setter cfg name value := <[name := VStr value]> cfg;
|}.

Definition sample_registry : Registry := {|
  list_plugins kind :=
    if bool_decide (kind = "machine") then ["A"; "B"]
    else if bool_decide (kind = "system") then ["English Stenotype"]
    else [];
  get_option_info machine :=
    if bool_decide (machine = "A") then [ {| opt_name := "port"; opt_default := "COM1" |} ]
    else [];
|}.

Definition sample_world : @World sample_host :=
  @mkWorld sample_host [] ∅ true 0 (false, false) "fg:white" None ∅.

(** A world in which the engine configuration agrees with the panes: both
    are hidden and both flags are false. *)
Definition synced_world : @World sample_host :=
  @mkWorld sample_host []
    {[ "show_stroke_display" := VBool false;
       "show_suggestions_display" := VBool false ]}
    true 0 (false, false) "fg:white" None ∅.

(** A world in which the engine configuration says the tape is shown while
    the pane is hidden. *)
Definition unsynced_world : @World sample_host :=
  @mkWorld sample_host [] {[ "show_stroke_display" := VBool true ]}
    true 0 (false, false) "fg:white" None ∅.

(** The example system of the tape: four keys in their listed order. *)
Definition sample_system : System := {|
  KEYS := ["S-"; "T-"; "#"; "-T"];
  NUMBERS := {[ "S-" := "1-"; "T-" := "2-"; "-T" := "-9" ]};
  KEY_ORDER := {[ "S-" := 0; "T-" := 1; "#" := 2; "-T" := 3;
                  "1-" := 0; "2-" := 1; "-9" := 3 ]};
|}.

(** A system whose number key is not called "#". *)
Definition barless_system : System := {|
  KEYS := ["N-"; "S-"; "T-"];
  NUMBERS := {[ "S-" := "1-"; "T-" := "2-" ]};
  KEY_ORDER := {[ "N-" := 0; "S-" := 1; "T-" := 2; "1-" := 1; "2-" := 2 ]};
|}.

(** A configuration update that names the system. *)
Definition sample_update : gmap string Value :=
  {[ "system_name" := VStr "English Stenotype" ]}.

(** Column widths of printable ASCII. *)
Definition ascii_wcwidth (c : ascii) : Z :=
  if (nat_of_ascii c =? 0)%nat then 0
  else if (32 <=? nat_of_ascii c)%nat && (nat_of_ascii c <? 127)%nat then 1
  else (-1).

(** The keys [on_stroked] walks over: the stroke's keys, followed by "#" when
    one of them is a number label. *)
Definition engaged_keys (numbers : gset string) (steno_keys : list string)
  : list string :=
  if existsb (fun key => bool_decide (key ∈ numbers)) steno_keys
  then (steno_keys ++ ["#"])%list
  else steno_keys.

(** Whether position [i] is the index of one of the keys. *)
Definition is_marked (system : System) (keys : list string) (i : nat) : bool :=
  existsb (fun key => bool_decide (KEY_ORDER system !! key = Some i)) keys.

(** The glyphs of a system: the key names without their dashes, joined. *)
Definition glyphs_of (system : System) : string :=
  Py.join "" (map (Py.strip "-") (KEYS system)).

(** ** Further vocabulary *)

(** [Command.on_enter]: the method does nothing. *)
Definition on_enter `{Host} (self : Command) : M unit := ret tt.

(** The help lines of the children in front of the first child that has no
    [name] attribute. *)
Fixpoint listed_lines (subs : list Command) : list string :=
  match subs with
  | Node _ name doc _ :: rest =>
      (Py.str name +:+ " - " +:+ Py.str doc) :: listed_lines rest
  | _ => []
  end.

(** The world after [n] calls of [handle] without arguments, one after the
    other. *)
Fixpoint repeat_handle `{Host} (self : Command) (n : nat) (w : World) : World :=
  match n with
  | O => w
  | S n' => repeat_handle self n' (snd (handle self [] w))
  end.

(** The world after a sequence of calls of [handle], each on its own node
    and words, whatever each call returns or raises. *)
Definition handle_all `{Host} (calls : list (Command * list string)) (w : World)
  : World :=
  fold_left (fun w call => snd (handle (fst call) (snd call) w)) calls w.

(** The classes whose [handle] never reads its [words]. *)
Definition ignores_words (cls : PyClass) : bool :=
  match cls with
  | cExitCommand | cToggleTapeCommand | cToggleSuggestionsCommand
  | cResetMachineCommand | cToggleOutputCommand | cSystemSetterCommand
  | cMachineSetterCommand => true
  | _ => false
  end.

(** The layout attributes of a tape are either all unset, as [__init__]
    leaves them, or all set with one filler per glyph and the width one more
    than the number of glyphs. *)
Definition layout_consistent (t : Tape) : Prop :=
  match _all_keys t, _all_keys_filler t, _numbers t, width t with
  | None, None, None, None => True
  | Some glyphs, Some filler, Some _, Some w =>
      length filler = String.length glyphs /\ w = String.length glyphs + 1
  | _, _, _, _ => False
  end.

(** What the host sends to the tape: a configuration change or a stroke,
    each with the steno system in force at that moment. *)
Inductive tape_event : Type :=
| ConfigChanged (system : System) (update : gmap string Value)
| Stroked (system : System) (steno_keys : list string).

(** One event; an exception of [on_stroked] goes to the host and the tape
    object stays. *)
Definition tape_step (wcwidth : ascii -> Z) (t : Tape) (ev : tape_event) : Tape :=
  match ev with
  | ConfigChanged system update => on_config_changed wcwidth system update t
  | Stroked system steno_keys => snd (on_stroked system steno_keys t)
  end.

Definition tape_run (wcwidth : ascii -> Z) (events : list tape_event) (t : Tape)
  : Tape :=
  fold_left (tape_step wcwidth) events t.

Definition is_stroke (ev : tape_event) : bool :=
  match ev with
  | Stroked _ _ => true
  | ConfigChanged _ _ => false
  end.

(** A key has a position inside a row of the given glyphs. *)
Definition in_row (system : System) (glyphs : string) (key : string) : Prop :=
  exists i, KEY_ORDER system !! key = Some i /\ i < String.length glyphs.

(** ** Properties of the command nodes *)

Section CommandProperties.

Context `{Host}.

Lemma join_empty_cons (x : string) (xs : list string) :
  Py.join "" (x :: xs) = x +:+ Py.join "" xs.
Proof.
  unfold Py.join. destruct xs as [|y ys]; simpl.
  - induction x as [|c x IH]; [reflexivity | exact (f_equal (String c) IH)].
  - reflexivity.
Qed.

Lemma underline_repeat (s : string) :
  Py.join "" (map (fun _ => "-") (list_ascii_of_string s))
  = string_of_list_ascii (repeat "-"%char (String.length s)).
Proof.
  induction s as [|c s IH]; [reflexivity|].
  cbn [list_ascii_of_string map String.length repeat string_of_list_ascii].
  rewrite join_empty_cons, IH. reflexivity.
Qed.

Lemma emit_lines_app (xs ys : list string) (w : World) :
  emit_lines (xs ++ ys) w = emit_lines ys (emit_lines xs w).
Proof. unfold emit_lines. apply fold_left_app. Qed.

Lemma console_emit_lines (lines : list string) (w : World) :
  console (emit_lines lines w) = (console w ++ lines)%list.
Proof.
  revert w. induction lines as [|l lines IH]; intros w; simpl.
  - now rewrite app_nil_r.
  - rewrite IH. simpl. now rewrite <- app_assoc.
Qed.

(** Printing touches nothing but the console. *)
Lemma emit_lines_frame (lines : list string) (w : World) :
  engine_config (emit_lines lines w) = engine_config w
  /\ engine_output (emit_lines lines w) = engine_output w
  /\ machine_resets (emit_lines lines w) = machine_resets w
  /\ layout (emit_lines lines w) = layout w
  /\ app_style (emit_lines lines w) = app_style w
  /\ app_exit (emit_lines lines w) = app_exit w
  /\ config_store (emit_lines lines w) = config_store w.
Proof.
  revert w. induction lines as [|l lines IH]; intros w; simpl.
  - repeat split.
  - destruct (IH (emit_line l w)) as (H1 & H2 & H3 & H4 & H5 & H6 & H7).
    rewrite H1, H2, H3, H4, H5, H6, H7. repeat split.
Qed.

(** The header part of [Command.handle]. *)
Lemma Command_handle_nonempty cls name doc subs (token : string) rest (w : World) :
  Command_handle (Node cls name doc subs) (token :: rest) w
  = (Return false,
     emit_lines (header name
                 ++ ["Unsupported command: " +:+ Py.join " " (token :: rest)]) w).
Proof.
  unfold Command_handle, header, output, bind, attr_name, attr_output, ret, modify.
  destruct (Py.truthy name); cbn.
  - now rewrite underline_repeat.
  - reflexivity.
Qed.

Lemma handle_inherited cls name doc subs words :
  inherits_handle cls = true ->
  handle (Node cls name doc subs) words
  = Command_handle (Node cls name doc subs) words.
Proof. destruct cls; simpl; intros Hc; try discriminate Hc; reflexivity. Qed.

Lemma child_named_is_child token subs child :
  child_named token subs = Some child ->
  In child subs /\ name_of child = Some token.
Proof.
  unfold child_named. intros Hf. apply find_some in Hf as [Hin Hn].
  split; [exact Hin|].
  destruct child as [c [n|] d s|d o]; simpl in *; try discriminate.
  apply bool_decide_eq_true_1 in Hn. now subst.
Qed.

(** C1, as the code has it: for a node that inherits [Command.handle] and a
    token sequence whose first token is the name of one of its children,
    [handle] does not descend into the child: it prints the header of the
    node when it has a name, then the line "Unsupported command: " followed
    by all the tokens joined with spaces, changes nothing but the console,
    and returns false. *)
Theorem handle_does_not_delegate cls name doc subs token rest child (w : World) :
  inherits_handle cls = true ->
  child_named token subs = Some child ->
  handle (Node cls name doc subs) (token :: rest) w
  = (Return false,
     emit_lines (header name
                 ++ ["Unsupported command: " +:+ Py.join " " (token :: rest)]) w).
Proof.
  intros Hc _. rewrite handle_inherited by exact Hc.
  apply Command_handle_nonempty.
Qed.

(** C2, as the code has it: for a node that inherits [Command.handle] and
    a non-empty token sequence whose first token names no child (in
    particular when there are no children), [handle] prints the header of the
    node, its capitalized name and an underline of the same length, when the
    node has a non-empty name, and then exactly one more line,
    "Unsupported command: " followed by all the tokens joined with single
    spaces; it returns false.  For a node without a name that line is the
    whole output. *)
Theorem handle_unsupported cls name doc subs token rest (w : World) :
  inherits_handle cls = true ->
  child_named token subs = None ->
  handle (Node cls name doc subs) (token :: rest) w
  = (Return false,
     emit_lines (header name
                 ++ ["Unsupported command: " +:+ Py.join " " (token :: rest)]) w).
Proof.
  intros Hc _. rewrite handle_inherited by exact Hc.
  apply Command_handle_nonempty.
Qed.

(** The root has no name, hence no header: the unsupported line is all
    that is printed. *)
Lemma header_nameless : header None = [].
Proof. reflexivity. Qed.

(** The listing loop over children that are all proper command nodes. *)
Lemma for_each_listing (self : Command) (subs : list Command) (w : World) :
  is_node self = true ->
  forallb is_node subs = true ->
  for_each subs (fun sc =>
    bind (attr_output self) (fun out =>
    bind (attr_name sc) (fun sc_name =>
    out (Py.str sc_name +:+ " - " +:+ Py.str (attr_doc sc))))) w
  = (Return tt, emit_lines (omap listing_line subs) w).
Proof.
  intros Hself. destruct self as [c n d s|]; [clear Hself|discriminate].
  revert w. induction subs as [|sc subs IH]; intros w Hall; [reflexivity|].
  simpl in Hall. apply andb_prop in Hall as [Hsc Hall].
  destruct sc as [c' n' d' s'|]; [|discriminate].
  cbn [for_each]. unfold bind at 1. cbn.
  rewrite IH by exact Hall. reflexivity.
Qed.

(** The help listing of a node whose children all went through
    [Command.__init__]: header, then one line per child in order. *)
Lemma Command_handle_listing cls name doc subs (w : World) :
  inherits_handle cls = true ->
  forallb is_node subs = true ->
  handle (Node cls name doc subs) [] w
  = (Return false, emit_lines (header name ++ omap listing_line subs) w).
Proof.
  intros Hc Hall. rewrite handle_inherited by exact Hc.
  rewrite emit_lines_app.
  set (self := Node cls name doc subs).
  assert (Hfe := fun w' => for_each_listing self subs w' eq_refl Hall).
  unfold Command_handle, header.
  change (attr_name self) with (@ret H _ name).
  change (attr_sub_commands self) with (@ret H _ subs).
  unfold bind at 1. cbn [ret].
  destruct (Py.truthy name).
  - unfold bind at 1. unfold bind at 1. cbn [output attr_output self bind ret modify].
    unfold bind at 1. cbn [ret]. unfold bind at 1. rewrite Hfe.
    rewrite underline_repeat. reflexivity.
  - unfold bind at 1. cbn [ret]. unfold bind at 1. cbn [ret].
    unfold bind at 1. rewrite Hfe. reflexivity.
Qed.

(** C3 at the options node of a machine that has an option: the children
    are option setters, which never received a [name]; the listing prints the
    header and then stops with an [AttributeError] instead of printing one
    line per child and returning false. *)
Theorem MachineOptionsCommand_listing_raises registry machine_name opt opts
    (w : World) :
  get_option_info registry machine_name = opt :: opts ->
  handle (MachineOptionsCommand registry machine_name) [] w
  = (Raise (AttributeError "name"), emit_lines ["Options"; "-------"] w).
Proof.
  intros Hopts. unfold MachineOptionsCommand. rewrite Hopts. reflexivity.
Qed.

(** C6: an option setter built by its constructor has no [output]
    attribute, so [handle] stops with an [AttributeError] before the getter
    is read: nothing is printed, nothing is written, and true is not
    returned. *)
Theorem MachineOptionSetterCommand_handle_raises config_option words (w : World) :
  handle (MachineOptionSetterCommand config_option) words w
  = (Raise (AttributeError "output"), w).
Proof. reflexivity. Qed.

(** C7: both setters print the target and write it into the engine
    configuration; the system setter returns true, the machine setter
    returns false. *)
Theorem setters_handle registry target words (w : World) :
  handle (SystemSetterCommand target) words w
  = (Return true,
     update_engine_config {[ "system_name" := VStr target ]}
       (emit_line ("Setting system to " +:+ target) w))
  /\ handle (MachineSetterCommand registry target) words w
     = (Return false,
        update_engine_config {[ "machine_type" := VStr target ]}
          (emit_line ("Setting machine to " +:+ target) w)).
Proof. split; reflexivity. Qed.

(** C4: the color command.  With a color that the style accepts, the style
    of the application is replaced, the config store then holds the color
    under "fg" and true is returned; with a color the style rejects, the error
    leaves [handle] and the world, config store included, is as before;
    without an argument nothing happens and false is returned. *)
Theorem ColorCommand_handle_spec :
  (forall color rest style (w : World),
      style_colored color = Some style ->
      exists w',
        handle ColorCommand (color :: rest) w = (Return true, w')
        /\ app_style w' = style
        /\ config_store w' !! "fg" = Some color
        /\ console w' = console w
        /\ engine_config w' = engine_config w)
  /\ (forall color rest (w : World),
        style_colored color = None ->
        handle ColorCommand (color :: rest) w = (Raise (InvalidColor color), w))
  /\ (forall w : World, handle ColorCommand [] w = (Return false, w)).
Proof.
  split; [|split].
  - intros color rest style w Hok.
    exists (config_set "fg" color (set_app_style style w)).
    cbn. unfold ColorCommand_handle. rewrite Hok. cbn.
    repeat split. apply lookup_insert_eq.
  - intros color rest w Hbad. cbn. unfold ColorCommand_handle.
    rewrite Hbad. reflexivity.
  - reflexivity.
Qed.

(** C8: the children of the machine command are the machine setters of the
    registered machines, one per entry and in registry order, each named
    after its entry and described by "sets machine to <name>"; for the
    registry entries A, B these are the two children A and B. *)
Theorem MachineCommand_children registry :
  let names := list_plugins registry "machine" in
  let subs := children_of (MachineCommand registry) in
  (subs = map (MachineSetterCommand registry) names
   /\ map class_of subs = map (fun _ => Some cMachineSetterCommand) names
   /\ map name_of subs = map Some names
   /\ map attr_doc subs = map (fun n => Some ("sets machine to " +:+ n)) names)
  /\ (names = ["A"; "B"] ->
      map name_of subs = [Some "A"; Some "B"]
      /\ map attr_doc subs = [Some "sets machine to A"; Some "sets machine to B"]).
Proof.
  intros names subs. subst subs. cbn [children_of MachineCommand]. fold names.
  assert (Hgen : map class_of (map (MachineSetterCommand registry) names)
                 = map (fun _ => Some cMachineSetterCommand) names
               /\ map name_of (map (MachineSetterCommand registry) names)
                 = map Some names
               /\ map attr_doc (map (MachineSetterCommand registry) names)
                 = map (fun n => Some ("sets machine to " +:+ n)) names).
  { rewrite !map_map. repeat split. }
  split.
  - split; [reflexivity | exact Hgen].
  - intros Hab. destruct Hgen as (_ & Hn & Hd). rewrite Hn, Hd, Hab.
    split; reflexivity.
Qed.

Lemma toggled_config_restored (key : string) (b : bool) (cfg : gmap string Value) :
  cfg !! key = Some (VBool b) ->
  {[ key := VBool b ]} ∪ ({[ key := VBool (negb b) ]} ∪ cfg) = cfg.
Proof.
  intros Hk. rewrite <- !insert_union_singleton_l.
  rewrite insert_insert_eq. now apply insert_id.
Qed.

Lemma ToggleOutputCommand_run words (w : World) :
  handle ToggleOutputCommand words w
  = (Return true,
     emit_line ("Output: " +:+ (if negb (engine_output w) then "Enabled" else "Disabled"))
       (set_engine_output (negb (engine_output w)) w)).
Proof.
  change (handle ToggleOutputCommand words w)
    with (ToggleOutputCommand_handle ToggleOutputCommand words w).
  unfold ToggleOutputCommand_handle, bind at 1, get.
  destruct (engine_output w); reflexivity.
Qed.

Lemma ToggleTapeCommand_run words (w : World) :
  handle ToggleTapeCommand words w
  = (Return true,
     let r := toggle_tape (layout w) in
     emit_line ("Show tape: " +:+ show_bool (fst r))
       (update_engine_config {[ "show_stroke_display" := VBool (fst r) ]}
          (set_layout (snd r) w))).
Proof.
  change (handle ToggleTapeCommand words w)
    with (ToggleTapeCommand_handle ToggleTapeCommand words w).
  unfold ToggleTapeCommand_handle, call_toggler, bind at 1.
  destruct (toggle_tape (layout w)); reflexivity.
Qed.

Lemma ToggleSuggestionsCommand_run words (w : World) :
  handle ToggleSuggestionsCommand words w
  = (Return true,
     let r := toggle_suggestions (layout w) in
     emit_line ("Show suggestions: " +:+ show_bool (fst r))
       (update_engine_config {[ "show_suggestions_display" := VBool (fst r) ]}
          (set_layout (snd r) w))).
Proof.
  change (handle ToggleSuggestionsCommand words w)
    with (ToggleSuggestionsCommand_handle ToggleSuggestionsCommand words w).
  unfold ToggleSuggestionsCommand_handle, call_toggler, bind at 1.
  destruct (toggle_suggestions (layout w)); reflexivity.
Qed.

(** C9, as the code has it: every toggle leaf is an involution on its
    flag.  The output toggle negates [engine.output], so two calls restore
    it from any starting state.  For the tape and the suggestions toggle,
    when the toggler flips the visibility of its pane and is an involution,
    and the flag in the engine configuration starts equal to the visibility
    of the pane, the first call writes the negated flag and the second call
    writes the starting flag back: the flag, the whole engine configuration
    and the pane state are restored. *)
Theorem toggles_are_involutions :
  (forall (w : World) words1 words2,
      exists w1 w2,
        handle ToggleOutputCommand words1 w = (Return true, w1)
        /\ handle ToggleOutputCommand words2 w1 = (Return true, w2)
        /\ engine_output w1 = negb (engine_output w)
        /\ engine_output w2 = engine_output w)
  /\ (forall shown, flips shown toggle_tape -> involutive toggle_tape ->
      forall (w : World) words1 words2,
      engine_config w !! "show_stroke_display" = Some (VBool (shown (layout w))) ->
      exists w1 w2,
        handle ToggleTapeCommand words1 w = (Return true, w1)
        /\ handle ToggleTapeCommand words2 w1 = (Return true, w2)
        /\ engine_config w1 !! "show_stroke_display"
           = Some (VBool (negb (shown (layout w))))
        /\ engine_config w2 !! "show_stroke_display"
           = engine_config w !! "show_stroke_display"
        /\ engine_config w2 = engine_config w
        /\ layout w2 = layout w)
  /\ (forall shown, flips shown toggle_suggestions -> involutive toggle_suggestions ->
      forall (w : World) words1 words2,
      engine_config w !! "show_suggestions_display"
      = Some (VBool (shown (layout w))) ->
      exists w1 w2,
        handle ToggleSuggestionsCommand words1 w = (Return true, w1)
        /\ handle ToggleSuggestionsCommand words2 w1 = (Return true, w2)
        /\ engine_config w1 !! "show_suggestions_display"
           = Some (VBool (negb (shown (layout w))))
        /\ engine_config w2 !! "show_suggestions_display"
           = engine_config w !! "show_suggestions_display"
        /\ engine_config w2 = engine_config w
        /\ layout w2 = layout w).
Proof.
  split; [|split].
  - intros w words1 words2.
    rewrite !ToggleOutputCommand_run. do 2 eexists.
    split; [reflexivity|]. rewrite ToggleOutputCommand_run.
    split; [reflexivity|]. cbn. now rewrite negb_involutive.
  - intros shown Hflip Hinv w words1 words2 Hsync.
    rewrite ToggleTapeCommand_run. do 2 eexists.
    split; [reflexivity|]. rewrite ToggleTapeCommand_run.
    split; [reflexivity|]. cbn.
    destruct (Hflip (layout w)) as [Hs1 Hl1].
    destruct (Hflip (snd (toggle_tape (layout w)))) as [Hs2 _].
    rewrite Hl1, negb_involutive in Hs2. rewrite Hs1, Hs2, Hinv.
    rewrite (toggled_config_restored _ _ _ Hsync).
    split; [apply lookup_union_Some_l, lookup_singleton_eq|].
    repeat split.
  - intros shown Hflip Hinv w words1 words2 Hsync.
    rewrite ToggleSuggestionsCommand_run. do 2 eexists.
    split; [reflexivity|]. rewrite ToggleSuggestionsCommand_run.
    split; [reflexivity|]. cbn.
    destruct (Hflip (layout w)) as [Hs1 Hl1].
    destruct (Hflip (snd (toggle_suggestions (layout w)))) as [Hs2 _].
    rewrite Hl1, negb_involutive in Hs2. rewrite Hs1, Hs2, Hinv.
    rewrite (toggled_config_restored _ _ _ Hsync).
    split; [apply lookup_union_Some_l, lookup_singleton_eq|].
    repeat split.
Qed.

End CommandProperties.

(** ** Properties of the paper tape *)

Section TapeProperties.

Variable wcwidth : ascii -> Z.

Variable system : System.

Lemma get_lookup (s : string) (i : nat) :
  String.get i s = list_ascii_of_string s !! i.
Proof.
  revert i. induction s as [|c s IH]; intros [|i]; simpl; auto.
Qed.

Lemma length_list_ascii (s : string) :
  length (list_ascii_of_string s) = String.length s.
Proof. induction s as [|c s IH]; simpl; auto. Qed.

Lemma get_is_Some (s : string) (i : nat) :
  i < String.length s -> exists g, String.get i s = Some g.
Proof.
  intros Hi. rewrite get_lookup. apply lookup_lt_is_Some_2.
  now rewrite length_list_ascii.
Qed.

Lemma is_marked_cons key keys i :
  is_marked system (key :: keys) i
  = bool_decide (KEY_ORDER system !! key = Some i) || is_marked system keys i.
Proof. reflexivity. Qed.

(** The loop succeeds when every key has an index inside the row, and then
    exactly the positions of the keys carry their glyph. *)
Lemma mark_keys_marks (t : Tape) glyphs keys : forall text,
  _all_keys t = Some glyphs ->
  length text = String.length glyphs ->
  Forall (fun key => exists i,
            KEY_ORDER system !! key = Some i /\ i < String.length glyphs) keys ->
  exists text',
    mark_keys system t keys text = Return text'
    /\ length text' = length text
    /\ forall i,
         text' !! i = if is_marked system keys i
                      then (fun g => String g "") <$> String.get i glyphs
                      else text !! i.
Proof.
  induction keys as [|key keys IH]; intros text Hall Hlen Hkeys.
  - exists text. repeat split.
  - inversion Hkeys as [|? ? (idx & Hidx & Hlt) Hrest]; subst.
    destruct (get_is_Some glyphs idx Hlt) as [g Hg].
    destruct (IH (<[idx := String g ""]> text)) as (text' & Hrun & Hlen' & Hcells);
      [exact Hall | now rewrite length_insert | exact Hrest |].
    exists text'. cbn [mark_keys]. rewrite Hidx, Hall, Hg.
    destruct (decide (idx < length text)) as [_|Hno]; [|lia].
    split; [exact Hrun|]. split; [now rewrite Hlen', length_insert|].
    intros i. rewrite Hcells, is_marked_cons.
    destruct (is_marked system keys i); [now rewrite orb_true_r|].
    rewrite orb_false_r. case_bool_decide as Hi.
    + assert (idx = i) by congruence. subst i.
      rewrite list_lookup_insert_eq by lia. now rewrite Hg.
    + apply list_lookup_insert_ne. congruence.
Qed.

(** The loop stops with a lookup error when a key has no index: a
    [KeyError] at that key, unless an earlier key already failed with an
    [IndexError]. *)
Lemma mark_keys_unknown (t : Tape) glyphs keys : forall text,
  _all_keys t = Some glyphs ->
  Exists (fun key => KEY_ORDER system !! key = None) keys ->
  exists e, mark_keys system t keys text = Raise e /\ is_LookupError e = true.
Proof.
  induction keys as [|key keys IH]; intros text Hall Hex.
  - inversion Hex.
  - cbn [mark_keys]. destruct (KEY_ORDER system !! key) as [idx|] eqn:Hidx.
    + rewrite Hall. destruct (String.get idx glyphs) as [g|];
        [|exists IndexError; now split].
      destruct (decide (idx < length text)); [|exists IndexError; now split].
      apply IH; [exact Hall|].
      inversion Hex as [? ? Hnone|? ? Hlater]; subst; [congruence | exact Hlater].
    + exists (KeyError key). now split.
Qed.

Lemma any_number_installed (t : Tape) numbers keys :
  _numbers t = Some numbers ->
  any_number t keys = Return (existsb (fun key => bool_decide (key ∈ numbers)) keys).
Proof. intros Hn. destruct keys; simpl; [reflexivity | now rewrite Hn]. Qed.

(** A stroke on a tape that holds a layout: the row. *)
Lemma on_stroked_installed (t : Tape) glyphs numbers steno_keys :
  _all_keys t = Some glyphs ->
  _all_keys_filler t
  = Some (map (fun k => Py.repeat_char " " (wcwidth k)) (list_ascii_of_string glyphs)) ->
  _numbers t = Some numbers ->
  Forall (fun key => exists i,
            KEY_ORDER system !! key = Some i /\ i < String.length glyphs)
         (engaged_keys numbers steno_keys) ->
  exists cells,
    on_stroked system steno_keys t
    = (Return tt, output_to_buffer (Py.join "" cells) t)
    /\ length cells = String.length glyphs
    /\ forall i g,
         String.get i glyphs = Some g ->
         cells !! i
         = Some (if is_marked system (engaged_keys numbers steno_keys) i
                 then String g ""
                 else Py.repeat_char " " (wcwidth g)).
Proof.
  intros Hall Hfill Hnum Hkeys.
  set (filler := map (fun k => Py.repeat_char " " (wcwidth k))
                     (list_ascii_of_string glyphs)) in *.
  assert (Hlen : length filler = String.length glyphs).
  { unfold filler. now rewrite length_map, length_list_ascii. }
  destruct (mark_keys_marks t glyphs (engaged_keys numbers steno_keys) filler
              Hall Hlen Hkeys) as (cells & Hrun & Hlen' & Hcells).
  exists cells. unfold on_stroked. rewrite Hfill.
  rewrite (any_number_installed t numbers) by exact Hnum.
  fold filler. unfold engaged_keys in Hrun. 
  split.
  - destruct (existsb _ steno_keys); now rewrite Hrun.
  - split; [congruence|]. intros i g Hg. rewrite Hcells, Hg.
    destruct (is_marked system _ i); [reflexivity|].
    unfold filler. rewrite list_lookup_fmap, <- get_lookup, Hg. reflexivity.
Qed.

End TapeProperties.

(** C5, as the code has it: after a system change has installed the
    layout, a stroke whose keys, together with "#" when one of them is a
    number label, all have an index below the number of glyphs appends
    exactly one row; in it every position that is the index of such a key
    shows the glyph of that position, and every other position a blank
    filler of the glyph's width.  On the example system with keys S-, T-, #,
    -T the stroke S-, # gives the row with S and # set and blanks elsewhere. *)
Theorem on_stroked_row :
  (forall wcwidth system update steno_keys (t : Tape),
      "system_name" ∈ dom update ->
      let t1 := on_config_changed wcwidth system update t in
      let keys := engaged_keys (map_img (NUMBERS system)) steno_keys in
      Forall (fun key => exists i,
                KEY_ORDER system !! key = Some i
                /\ i < String.length (glyphs_of system)) keys ->
      exists cells,
        on_stroked system steno_keys t1
        = (Return tt, output_to_buffer (Py.join "" cells) t1)
        /\ buffer (snd (on_stroked system steno_keys t1))
           = (buffer t ++ [Py.join "" cells])%list
        /\ length cells = String.length (glyphs_of system)
        /\ forall i g,
             String.get i (glyphs_of system) = Some g ->
             cells !! i
             = Some (if is_marked system keys i
                     then String g ""
                     else Py.repeat_char " " (wcwidth g)))
  /\ buffer (snd (on_stroked sample_system ["S-"; "#"]
                   (on_config_changed ascii_wcwidth sample_system
                      {[ "system_name" := VStr "English Stenotype" ]} Tape_init)))
     = ["S # "].
Proof.
  split; [|vm_compute; reflexivity].
  intros wcwidth system update steno_keys t Hsys t1 keys Hkeys.
  assert (Ht1 : t1 = mkTape
            (Some (glyphs_of system))
            (Some (map (fun k => Py.repeat_char " " (wcwidth k))
                       (list_ascii_of_string (glyphs_of system))))
            (Some (map_img (NUMBERS system)))
            (Some (String.length (glyphs_of system) + 1))
            (buffer t)).
  { subst t1. unfold on_config_changed. now rewrite bool_decide_eq_true_2. }
  destruct (on_stroked_installed wcwidth system t1 (glyphs_of system)
              (map_img (NUMBERS system)) steno_keys)
    as (cells & Hrun & Hlen & Hcells);
    [now rewrite Ht1 | now rewrite Ht1 | now rewrite Ht1 | exact Hkeys |].
  exists cells. split; [exact Hrun|]. split; [|split; [exact Hlen | exact Hcells]].
  rewrite Hrun. simpl. now rewrite Ht1.
Qed.

(** C10, as the code has it: on a tape that holds a layout (ordered keys,
    fillers and numeric keys set by a system change), a stroke one of whose
    keys, "#" included when it is added, has no index makes [on_stroked] stop
    with a lookup error; no row is emitted, and the tape, its buffer and its
    layout are what they were. *)
Theorem on_stroked_unknown_key system steno_keys (t : Tape) glyphs filler numbers :
  _all_keys t = Some glyphs ->
  _all_keys_filler t = Some filler ->
  _numbers t = Some numbers ->
  Exists (fun key => KEY_ORDER system !! key = None)
         (engaged_keys numbers steno_keys) ->
  exists e,
    on_stroked system steno_keys t = (Raise e, t)
    /\ is_LookupError e = true.
Proof.
  intros Hall Hfill Hnum Hex.
  unfold on_stroked. rewrite Hfill.
  rewrite (any_number_installed t numbers) by exact Hnum.
  unfold engaged_keys in Hex.
  destruct (existsb _ steno_keys);
    destruct (mark_keys_unknown system t glyphs _ filler Hall Hex) as (e & Hrun & He);
    exists e; now rewrite Hrun.
Qed.

(** ** The statements on concrete inputs *)

(** C1 as stated fails: at the root built by [build_commands], the token
    "output" names the output toggle, yet [handle] of the root does not
    behave as the toggle's [handle] on the remaining tokens (the root returns
    false and leaves [engine.output] alone; the toggle returns true). *)
Lemma root_does_not_delegate :
  ~ delegates (build_commands sample_registry) ["output"] sample_world.
Proof.
  unfold delegates. vm_compute. intros Heq. discriminate Heq.
Qed.

Lemma handle_does_not_delegate_witness :
  handle (build_commands sample_registry) ["output"] sample_world
  = (Return false, emit_lines ["Unsupported command: output"] sample_world).
Proof.
  unfold build_commands.
  apply (handle_does_not_delegate (H := sample_host) cCommand None None _
           "output" [] ToggleOutputCommand sample_world); reflexivity.
Defined.

Lemma handle_unsupported_witness :
  handle (UiCommands [ToggleTapeCommand; ToggleSuggestionsCommand; ColorCommand])
    ["font"; "big"] sample_world
  = (Return false,
     emit_lines ["Ui"; "--"; "Unsupported command: font big"] sample_world).
Proof.
  unfold UiCommands.
  apply (handle_unsupported (H := sample_host) cUiCommands (Some "ui") _ _
           "font" ["big"] sample_world); reflexivity.
Defined.

(** C2 as stated fails: the ui node has no child named "font", and [handle]
    prints three lines, the header "Ui", its underline and the unsupported
    line, not that one line alone.  Nor is the unsupported line always the
    only line equal to it: a node named "unsupported command: a" prints it
    twice for the token "a", once as its header. *)
Lemma named_node_prints_header :
  let ui := UiCommands [ToggleTapeCommand; ToggleSuggestionsCommand; ColorCommand] in
  let odd := Node cCommand (Some "unsupported command: a") None [] in
  child_named "font" (children_of ui) = None
  /\ console (snd (handle ui ["font"; "big"] sample_world))
     = ["Ui"; "--"; "Unsupported command: font big"]
  /\ console (snd (handle ui ["font"; "big"] sample_world))
     <> (console sample_world ++ ["Unsupported command: font big"])%list
  /\ child_named "a" (children_of odd) = None
  /\ count_occ String.string_dec
       (console (snd (handle odd ["a"] sample_world))) "Unsupported command: a"
     = 2.
Proof.
  cbv zeta. split; [reflexivity|]. split; [vm_compute; reflexivity|].
  split; [vm_compute; discriminate|]. split; [reflexivity|].
  vm_compute. reflexivity.
Qed.

Lemma MachineOptionsCommand_listing_raises_witness :
  handle (MachineOptionsCommand sample_registry "A") [] sample_world
  = (Raise (AttributeError "name"), emit_lines ["Options"; "-------"] sample_world).
Proof.
  exact (MachineOptionsCommand_listing_raises (H := sample_host) sample_registry "A"
           {| opt_name := "port"; opt_default := "COM1" |} [] sample_world eq_refl).
Defined.

Lemma ColorCommand_handle_spec_witness :
  (exists w',
      handle ColorCommand ["green"] sample_world = (Return true, w')
      /\ app_style w' = "fg:green"
      /\ config_store w' !! "fg" = Some "green"
      /\ console w' = console sample_world
      /\ engine_config w' = engine_config sample_world)
  /\ handle ColorCommand ["grene"] sample_world
     = (Raise (InvalidColor "grene"), sample_world).
Proof.
  destruct (ColorCommand_handle_spec (H := sample_host)) as (Hok & Hbad & _).
  split.
  - apply (Hok "green" [] "fg:green" sample_world). reflexivity.
  - apply (Hbad "grene" [] sample_world). reflexivity.
Defined.

Lemma MachineCommand_children_witness :
  map name_of (children_of (MachineCommand sample_registry))
  = [Some "A"; Some "B"]
  /\ map attr_doc (children_of (MachineCommand sample_registry))
     = [Some "sets machine to A"; Some "sets machine to B"].
Proof.
  apply (proj2 (MachineCommand_children sample_registry)).
  reflexivity.
Defined.

Lemma sample_toggle_tape_flips :
  flips (H := sample_host) fst toggle_tape /\ involutive (H := sample_host) toggle_tape.
Proof.
  split.
  - intros [a b]. split; reflexivity.
  - intros [[] b]; reflexivity.
Defined.

Lemma toggles_are_involutions_witness :
  exists w1 w2 : @World sample_host,
    handle ToggleTapeCommand [] synced_world = (Return true, w1)
    /\ handle ToggleTapeCommand [] w1 = (Return true, w2)
    /\ engine_config w1 !! "show_stroke_display" = Some (VBool true)
    /\ engine_config w2 !! "show_stroke_display"
       = engine_config synced_world !! "show_stroke_display"
    /\ engine_config w2 = engine_config synced_world
    /\ layout w2 = layout synced_world.
Proof.
  apply (proj1 (proj2 (toggles_are_involutions (H := sample_host)))
           fst (proj1 sample_toggle_tape_flips) (proj2 sample_toggle_tape_flips)
           synced_world [] []).
  vm_compute. reflexivity.
Defined.

(** C9 as stated fails: the togglers of the sample host flip their pane and
    are involutions, yet from a world whose engine configuration says the
    tape is shown while the pane is hidden, two calls of the tape toggle
    leave the flag false where it started true. *)
Lemma tape_toggle_twice_not_restored :
  flips (H := sample_host) fst toggle_tape
  /\ involutive (H := sample_host) toggle_tape
  /\ engine_config unsynced_world !! "show_stroke_display" = Some (VBool true)
  /\ engine_config
       (snd (handle ToggleTapeCommand []
               (snd (handle ToggleTapeCommand [] unsynced_world))))
       !! "show_stroke_display"
     = Some (VBool false)
  /\ engine_config
       (snd (handle ToggleTapeCommand []
               (snd (handle ToggleTapeCommand [] unsynced_world))))
       !! "show_stroke_display"
     <> engine_config unsynced_world !! "show_stroke_display".
Proof.
  split; [exact (proj1 sample_toggle_tape_flips)|].
  split; [exact (proj2 sample_toggle_tape_flips)|].
  split; [vm_compute; reflexivity|].
  split; [vm_compute; reflexivity|].
  vm_compute. discriminate.
Qed.

(** C5 as stated fails: in a system whose number key is not "#", the
    stroke 1- has all its keys in the key order, the layout is installed, and
    [on_stroked] stops with a [KeyError] for "#" without appending a row. *)
Lemma on_stroked_number_bar_missing :
  let t := on_config_changed ascii_wcwidth barless_system
             {[ "system_name" := VStr "Barless" ]} Tape_init in
  Forall (fun key => is_Some (KEY_ORDER barless_system !! key)) ["1-"]
  /\ on_stroked barless_system ["1-"] t = (Raise (KeyError "#"), t)
  /\ ~ exists row, buffer (snd (on_stroked barless_system ["1-"] t))
                   = (buffer t ++ [row])%list.
Proof.
  split; [|split].
  - repeat constructor. vm_compute. eexists. reflexivity.
  - vm_compute. reflexivity.
  - intros [row Hrow]. vm_compute in Hrow. discriminate Hrow.
Qed.

Lemma on_stroked_row_witness :
  let update : gmap string Value := {[ "system_name" := VStr "English Stenotype" ]} in
  let t1 := on_config_changed ascii_wcwidth sample_system update Tape_init in
  let keys := engaged_keys (map_img (NUMBERS sample_system)) ["S-"; "#"] in
  exists cells,
    on_stroked sample_system ["S-"; "#"] t1
    = (Return tt, output_to_buffer (Py.join "" cells) t1)
    /\ buffer (snd (on_stroked sample_system ["S-"; "#"] t1))
       = (buffer Tape_init ++ [Py.join "" cells])%list
    /\ length cells = String.length (glyphs_of sample_system)
    /\ forall i g,
         String.get i (glyphs_of sample_system) = Some g ->
         cells !! i
         = Some (if is_marked sample_system keys i
                 then String g ""
                 else Py.repeat_char " " (ascii_wcwidth g)).
Proof.
  apply (proj1 on_stroked_row ascii_wcwidth sample_system
           {[ "system_name" := VStr "English Stenotype" ]} ["S-"; "#"] Tape_init).
  - apply elem_of_dom. eexists. apply lookup_singleton_eq.
  - vm_compute engaged_keys.
    repeat constructor.
    + exists 0. split; [reflexivity | vm_compute; lia].
    + exists 2. split; [reflexivity | vm_compute; lia].
Defined.

Lemma on_stroked_unknown_key_witness :
  let t1 := on_config_changed ascii_wcwidth sample_system
              {[ "system_name" := VStr "English Stenotype" ]} Tape_init in
  exists e,
    on_stroked sample_system ["S-"; "Z-"] t1 = (Raise e, t1)
    /\ is_LookupError e = true.
Proof.
  eapply (on_stroked_unknown_key sample_system ["S-"; "Z-"]).
  - reflexivity.
  - reflexivity.
  - reflexivity.
  - vm_compute engaged_keys. apply Exists_cons_tl, Exists_cons_hd. reflexivity.
Defined.

(** C10 as stated fails: on a fresh tape, which holds no layout yet, the
    stroke Z- has a key without an index, and [on_stroked] stops with a
    [TypeError], which is not a lookup error; the tape is unchanged. *)
Lemma on_stroked_fresh_tape_type_error :
  Exists (fun key => KEY_ORDER sample_system !! key = None) ["Z-"]
  /\ on_stroked sample_system ["Z-"] Tape_init = (Raise TypeError, Tape_init)
  /\ is_LookupError TypeError = false
  /\ ~ exists e, on_stroked sample_system ["Z-"] Tape_init = (Raise e, Tape_init)
                 /\ is_LookupError e = true.
Proof.
  split; [apply Exists_cons_hd; reflexivity|].
  split; [reflexivity|]. split; [reflexivity|].
  intros (e & Hrun & He). cbn in Hrun. injection Hrun as <-. discriminate He.
Qed.

(** ** Further properties of the command nodes *)

Section MoreCommandProperties.

Context `{Host}.

Lemma listed_lines_nodes (subs : list Command) :
  forallb is_node subs = true -> listed_lines subs = omap listing_line subs.
Proof.
  induction subs as [|[c n d s|d o] subs IH]; simpl; intros Hall;
    [reflexivity | now rewrite IH | discriminate].
Qed.

(** The listing loop on any children: it prints up to the first child
    without a [name] and stops there. *)
Lemma for_each_listing_any (self : Command) (subs : list Command) (w : World) :
  is_node self = true ->
  for_each subs (fun sc =>
    bind (attr_output self) (fun out =>
    bind (attr_name sc) (fun sc_name =>
    out (Py.str sc_name +:+ " - " +:+ Py.str (attr_doc sc))))) w
  = (if forallb is_node subs then Return tt else Raise (AttributeError "name"),
     emit_lines (listed_lines subs) w).
Proof.
  intros Hself. destruct self as [c n d s|]; [clear Hself|discriminate].
  revert w. induction subs as [|sc subs IH]; intros w; [reflexivity|].
  destruct sc as [c' n' d' s'|d' o']; [|reflexivity].
  cbn [for_each]. unfold bind at 1. cbn.
  rewrite IH. destruct (forallb is_node subs); reflexivity.
Qed.

Lemma Command_handle_empty cls name doc subs (w : World) :
  Command_handle (Node cls name doc subs) [] w
  = (if forallb is_node subs then Return false else Raise (AttributeError "name"),
     emit_lines (header name ++ listed_lines subs) w).
Proof.
  rewrite emit_lines_app.
  set (self := Node cls name doc subs).
  assert (Hfe := fun w' => for_each_listing_any self subs w' eq_refl).
  unfold Command_handle, header.
  change (attr_name self) with (@ret H _ name).
  change (attr_sub_commands self) with (@ret H _ subs).
  unfold bind at 1. cbn [ret].
  destruct (Py.truthy name).
  - unfold bind at 1. unfold bind at 1. cbn [output attr_output self bind ret modify].
    unfold bind at 1. cbn [ret]. unfold bind at 1. rewrite Hfe.
    rewrite underline_repeat. destruct (forallb is_node subs); reflexivity.
  - unfold bind at 1. cbn [ret]. unfold bind at 1. cbn [ret].
    unfold bind at 1. rewrite Hfe. destruct (forallb is_node subs); reflexivity.
Qed.

(** What [Command.handle] does to the world, for any words: it prints some
    lines, and its result is not true. *)
Lemma Command_handle_prints cls name doc subs words (w : World) :
  exists lines,
    snd (Command_handle (Node cls name doc subs) words w) = emit_lines lines w
    /\ fst (Command_handle (Node cls name doc subs) words w) <> Return true.
Proof.
  destruct words as [|token rest].
  - rewrite Command_handle_empty. eexists. split; [reflexivity|].
    simpl. destruct (forallb is_node subs); discriminate.
  - rewrite Command_handle_nonempty. eexists. split; [reflexivity|]. discriminate.
Qed.

(** X1: the help listing of any node that inherits [Command.handle].  The
    header of a named node is printed, then one line per child up to the
    first child that has no [name] attribute; when every child has one the
    result is false, otherwise the call stops there with an
    [AttributeError], the lines printed so far staying on the console.  For
    any words the result of the inherited [handle] is never true. *)
Theorem Command_handle_help cls name doc subs (w : World) :
  inherits_handle cls = true ->
  handle (Node cls name doc subs) [] w
  = (if forallb is_node subs then Return false else Raise (AttributeError "name"),
     emit_lines (header name ++ listed_lines subs) w)
  /\ forall words, fst (handle (Node cls name doc subs) words w) <> Return true.
Proof.
  intros Hc. split.
  - rewrite handle_inherited by exact Hc. apply Command_handle_empty.
  - intros words. rewrite handle_inherited by exact Hc.
    destruct (Command_handle_prints cls name doc subs words w) as (_ & _ & Hne).
    exact Hne.
Qed.

Lemma prefix_emit_line (line : string) (w : World) :
  console w `prefix_of` console (emit_line line w).
Proof. now exists [line]. Qed.

Lemma prefix_emit_lines (lines : list string) (w : World) :
  console w `prefix_of` console (emit_lines lines w).
Proof. exists lines. apply console_emit_lines. Qed.

Lemma prefix_same (w : World) : console w `prefix_of` console w.
Proof. exists []. now rewrite app_nil_r. Qed.

#[local] Ltac footprint_leaf :=
  cbv zeta; cbn; repeat split; intros;
  first [ reflexivity | congruence | apply prefix_same | apply prefix_emit_line
        | eexists; reflexivity ].

(** What a call of [handle] leaves alone, by the class of the node. *)
Lemma handle_frame (self : Command) (words : list string) (w : World) :
  let w' := snd (handle self words w) in
  console w `prefix_of` console w'
  /\ (class_of self <> Some cExitCommand -> app_exit w' = app_exit w)
  /\ (class_of self <> Some cColorCommand ->
      app_style w' = app_style w /\ config_store w' = config_store w)
  /\ (class_of self <> Some cResetMachineCommand ->
      machine_resets w' = machine_resets w)
  /\ (class_of self <> Some cToggleOutputCommand ->
      engine_output w' = engine_output w)
  /\ (class_of self <> Some cToggleTapeCommand ->
      class_of self <> Some cToggleSuggestionsCommand ->
      layout w' = layout w)
  /\ (class_of self <> Some cToggleTapeCommand ->
      class_of self <> Some cToggleSuggestionsCommand ->
      class_of self <> Some cSystemSetterCommand ->
      class_of self <> Some cMachineSetterCommand ->
      engine_config w' = engine_config w).
Proof.
  destruct self as [cls name doc subs|odoc option]; [|footprint_leaf].
  destruct (inherits_handle cls) eqn:Hc.
  - rewrite handle_inherited by exact Hc.
    destruct (Command_handle_prints cls name doc subs words w) as (lines & Hw & _).
    cbv zeta. rewrite Hw.
    destruct (emit_lines_frame lines w) as (H1 & H2 & H3 & H4 & H5 & H6 & H7).
    repeat split; intros; try assumption. apply prefix_emit_lines.
  - destruct cls; try discriminate Hc; clear Hc.
    + (* color *)
      destruct words as [|color rest]; [footprint_leaf|].
      cbn [handle]. unfold ColorCommand_handle.
      destruct (style_colored color); footprint_leaf.
    + footprint_leaf.
    + (* lookup *)
      destruct words as [|word rest]; [footprint_leaf|].
      cbn [handle]. unfold LookupCommand_handle.
      destruct (format_suggestions _); footprint_leaf.
    + cbn [handle]. unfold ToggleTapeCommand_handle, call_toggler, bind.
      destruct (toggle_tape (layout w)); footprint_leaf.
    + cbn [handle]. unfold ToggleSuggestionsCommand_handle, call_toggler, bind.
      destruct (toggle_suggestions (layout w)); footprint_leaf.
    + footprint_leaf.
    + cbn [handle]. unfold ToggleOutputCommand_handle, bind, get.
      destruct (engine_output w) eqn:Eon; footprint_leaf.
    + footprint_leaf.
    + footprint_leaf.
Qed.

(** X2: what each command may change.  Whatever the node, the words and
    the world, [handle] only appends to the console; the exit request is
    touched by the exit command alone, the style and the config store by the
    color command alone, the machine by the reset command alone,
    [engine.output] by the output toggle alone, the panes by the two pane
    toggles alone, and the engine configuration by the pane toggles and the
    two setters alone. *)
Theorem handle_footprint (self : Command) (words : list string) (w : World) :
  let w' := snd (handle self words w) in
  console w `prefix_of` console w'
  /\ (class_of self <> Some cExitCommand -> app_exit w' = app_exit w)
  /\ (class_of self <> Some cColorCommand ->
      app_style w' = app_style w /\ config_store w' = config_store w)
  /\ (class_of self <> Some cResetMachineCommand ->
      machine_resets w' = machine_resets w)
  /\ (class_of self <> Some cToggleOutputCommand ->
      engine_output w' = engine_output w)
  /\ (class_of self <> Some cToggleTapeCommand ->
      class_of self <> Some cToggleSuggestionsCommand ->
      layout w' = layout w)
  /\ (class_of self <> Some cToggleTapeCommand ->
      class_of self <> Some cToggleSuggestionsCommand ->
      class_of self <> Some cSystemSetterCommand ->
      class_of self <> Some cMachineSetterCommand ->
      engine_config w' = engine_config w).
Proof. exact (handle_frame self words w). Qed.

Lemma setters_are_nodes {A} (make : A -> Command) (line : A -> string) (xs : list A) :
  (forall x, listing_line (make x) = Some (line x)) ->
  forallb is_node (map make xs) = true
  /\ omap listing_line (map make xs) = map line xs.
Proof.
  intros Hmake. induction xs as [|x xs [IH1 IH2]]; [split; reflexivity|].
  cbn [map]. specialize (Hmake x).
  destruct (make x) as [c n d s|d o]; [|discriminate Hmake].
  split; [exact IH1|].
  change (omap listing_line (Node c n d s :: map make xs))
    with (match listing_line (Node c n d s) with
          | Some l => l :: omap listing_line (map make xs)
          | None => omap listing_line (map make xs)
          end).
  now rewrite Hmake, IH2.
Qed.

(** X3: the help of the two plugin menus.  For every registry, asking the
    system command for help prints "System", its underline and one line
    "<name> - sets system to <name>" per registered system in registry order;
    the machine command does the same with "Machine" and
    "<name> - sets machine to <name>".  Both return false. *)
Theorem plugin_menus_help registry (w : World) :
  handle (SystemCommand registry) [] w
  = (Return false,
     emit_lines (["System"; "------"]
                 ++ map (fun n => n +:+ " - sets system to " +:+ n)
                        (list_plugins registry "system")) w)
  /\ handle (MachineCommand registry) [] w
     = (Return false,
        emit_lines (["Machine"; "-------"]
                    ++ map (fun n => n +:+ " - sets machine to " +:+ n)
                           (list_plugins registry "machine")) w).
Proof.
  split.
  - destruct (setters_are_nodes SystemSetterCommand
                (fun n => n +:+ " - sets system to " +:+ n)
                (list_plugins registry "system")) as [Hn Hl]; [reflexivity|].
    unfold SystemCommand. rewrite Command_handle_listing by (reflexivity || exact Hn).
    rewrite Hl. reflexivity.
  - destruct (setters_are_nodes (MachineSetterCommand registry)
                (fun n => n +:+ " - sets machine to " +:+ n)
                (list_plugins registry "machine")) as [Hn Hl]; [reflexivity|].
    unfold MachineCommand. rewrite Command_handle_listing by (reflexivity || exact Hn).
    rewrite Hl. reflexivity.
Qed.

(** X4: the tree of [build_commands], for every registry.  The help of the
    root is the six top-level commands in their declared order, without a
    header; the help of the configure node lists machine and system, the help
    of the ui node lists tape, suggestions and color.  The top-level names are
    pairwise different.  Any non-empty command line given to the root is
    answered with "Unsupported command: ..." and false, the names of the
    children included. *)
Theorem build_commands_help registry (w : World) :
  handle (build_commands registry) [] w
  = (Return false,
     emit_lines [ "configure - configuration commands";
                  "lookup - looks up words in current dictionaries";
                  "reset - reconnects current machine";
                  "output - toggles plover output on/off";
                  "ui - commands for user interface";
                  "exit - exits plover" ] w)
  /\ handle (ConfigureCommand [MachineCommand registry; SystemCommand registry]) [] w
     = (Return false,
        emit_lines [ "Configure"; "---------";
                     "machine - machine commands";
                     "system - system commands" ] w)
  /\ handle (UiCommands [ToggleTapeCommand; ToggleSuggestionsCommand; ColorCommand]) [] w
     = (Return false,
        emit_lines [ "Ui"; "--";
                     "tape - turns paper tape pane on/off";
                     "suggestions - turns suggestions pane on/off";
                     "color - sets foreground color of console (web colors or hexes should work)" ] w)
  /\ NoDup (map name_of (children_of (build_commands registry)))
  /\ forall token rest,
       handle (build_commands registry) (token :: rest) w
       = (Return false,
          emit_lines ["Unsupported command: " +:+ Py.join " " (token :: rest)] w).
Proof.
  split; [|split; [|split; [|split]]].
  - unfold build_commands. now rewrite Command_handle_listing.
  - unfold ConfigureCommand. now rewrite Command_handle_listing.
  - unfold UiCommands. now rewrite Command_handle_listing.
  - cbn. eapply bool_decide_eq_true_1. vm_compute. reflexivity.
  - intros token rest. unfold build_commands.
    rewrite handle_inherited by reflexivity. apply Command_handle_nonempty.
Qed.

(** X5: the lookup command only reads.  Without words it prints nothing
    and returns false.  With words it joins them with spaces, unescapes the
    text, and prints exactly one line that is never empty: the formatted
    suggestions when there are some, otherwise the quoted text followed by
    "not found"; it returns true and changes nothing but the console. *)
Theorem LookupCommand_handle_spec :
  (forall w : World, handle LookupCommand [] w = (Return false, w))
  /\ (forall word rest (w : World),
        let lookup := unescape_translation (Py.join " " (word :: rest)) in
        let found := format_suggestions (get_suggestions lookup) in
        let line := match found with
                    | EmptyString => "'" +:+ lookup +:+ "' not found"
                    | String _ _ => found
                    end in
        handle LookupCommand (word :: rest) w = (Return true, emit_line line w)
        /\ line <> "").
Proof.
  split; [reflexivity|].
  intros word rest w lookup found line.
  change (handle LookupCommand (word :: rest) w)
    with (LookupCommand_handle LookupCommand (word :: rest) w).
  unfold LookupCommand_handle. fold lookup. fold found. subst line.
  destruct found as [|c found']; split; (reflexivity || discriminate).
Qed.

(** X6: seven commands never look at their arguments: for the exit, reset,
    output, tape and suggestions commands and for both setters, [handle] with
    any words does what [handle] without words does.  The color command looks
    at its first word only. *)
Theorem handle_ignores_words :
  (forall cls name doc subs words (w : World),
      ignores_words cls = true ->
      handle (Node cls name doc subs) words w = handle (Node cls name doc subs) [] w)
  /\ (forall name doc subs color rest (w : World),
        handle (Node cColorCommand name doc subs) (color :: rest) w
        = handle (Node cColorCommand name doc subs) [color] w).
Proof.
  split.
  - intros cls name doc subs words w Hc.
    destruct cls; try discriminate Hc; reflexivity.
  - reflexivity.
Qed.

Lemma update_twice (key : string) (v v' : Value) (cfg : gmap string Value) :
  {[ key := v ]} ∪ ({[ key := v' ]} ∪ cfg) = {[ key := v ]} ∪ cfg.
Proof. rewrite <- !insert_union_singleton_l. apply insert_insert_eq. Qed.

Lemma update_swap (k1 k2 : string) (v1 v2 : Value) (cfg : gmap string Value) :
  k1 <> k2 ->
  {[ k1 := v1 ]} ∪ ({[ k2 := v2 ]} ∪ cfg) = {[ k2 := v2 ]} ∪ ({[ k1 := v1 ]} ∪ cfg).
Proof.
  intros Hne. rewrite <- !insert_union_singleton_l. now apply insert_insert_ne.
Qed.

Lemma update_lookup (key : string) (v : Value) (cfg : gmap string Value) (k : string) :
  ({[ key := v ]} ∪ cfg) !! k = if decide (key = k) then Some v else cfg !! k.
Proof. rewrite <- insert_union_singleton_l. apply lookup_insert. Qed.

(** X7: the two setters on the engine configuration.  The system setter
    leaves its name under "system_name" and every other key as it was, the
    machine setter likewise with "machine_type".  Setting the same target
    again changes nothing more, a later target replaces an earlier one, and a
    machine setter and a system setter give the same configuration in either
    order. *)
Theorem setters_on_config registry (a b m : string) words1 words2 (w : World) :
  let sys x w := snd (handle (SystemSetterCommand x) words1 w) in
  let mach x w := snd (handle (MachineSetterCommand registry x) words2 w) in
  engine_config (sys a w) !! "system_name" = Some (VStr a)
  /\ engine_config (mach m w) !! "machine_type" = Some (VStr m)
  /\ (forall k, k <> "system_name" ->
       engine_config (sys a w) !! k = engine_config w !! k)
  /\ (forall k, k <> "machine_type" ->
       engine_config (mach m w) !! k = engine_config w !! k)
  /\ engine_config (sys a (sys a w)) = engine_config (sys a w)
  /\ engine_config (mach m (mach m w)) = engine_config (mach m w)
  /\ engine_config (sys b (sys a w)) = engine_config (sys b w)
  /\ engine_config (mach m (sys a w)) = engine_config (sys a (mach m w)).
Proof.
  intros sys mach. subst sys mach. cbn.
  repeat split.
  - rewrite update_lookup. now rewrite decide_True.
  - rewrite update_lookup. now rewrite decide_True.
  - intros k Hk. rewrite update_lookup. now rewrite decide_False.
  - intros k Hk. rewrite update_lookup. now rewrite decide_False.
  - apply update_twice.
  - apply update_twice.
  - apply update_twice.
  - now apply update_swap.
Qed.

Lemma ColorCommand_run color rest style (w : World) :
  style_colored color = Some style ->
  handle ColorCommand (color :: rest) w
  = (Return true, config_set "fg" color (set_app_style style w)).
Proof.
  intros Hok. change (handle ColorCommand (color :: rest) w)
    with (ColorCommand_handle ColorCommand (color :: rest) w).
  unfold ColorCommand_handle. now rewrite Hok.
Qed.

(** X8: colors in sequence.  After an accepted color, a second accepted
    color gives the world that the second color alone would have given (the
    same color twice is the same as once); a rejected color after an accepted
    one raises and leaves the accepted color in the config store and in the
    style; and the color command writes no other key of the config store. *)
Theorem ColorCommand_sequence c1 c2 s1 (w : World) :
  style_colored c1 = Some s1 ->
  let w1 := snd (handle ColorCommand [c1] w) in
  (forall s2, style_colored c2 = Some s2 ->
     handle ColorCommand [c2] w1 = handle ColorCommand [c2] w)
  /\ (style_colored c2 = None ->
      handle ColorCommand [c2] w1 = (Raise (InvalidColor c2), w1)
      /\ config_store w1 !! "fg" = Some c1
      /\ app_style w1 = s1)
  /\ (forall k, k <> "fg" -> config_store w1 !! k = config_store w !! k).
Proof.
  intros H1 w1. subst w1. rewrite (ColorCommand_run c1 [] s1 w H1). cbn [snd].
  split; [|split].
  - intros s2 H2. rewrite !(ColorCommand_run c2 [] s2) by exact H2.
    unfold config_set, set_app_style. cbn. now rewrite insert_insert_eq.
  - intros H2. split; [|split].
    + change (handle ColorCommand [c2] ?x) with (ColorCommand_handle ColorCommand [c2] x).
      unfold ColorCommand_handle. now rewrite H2.
    + cbn. apply lookup_insert_eq.
    + reflexivity.
  - intros k Hk. cbn. now apply lookup_insert_ne.
Qed.

Lemma ResetMachineCommand_run words (w : World) :
  handle ResetMachineCommand words w
  = (Return true, reset_machine (emit_line "Resetting machine..." w)).
Proof. reflexivity. Qed.

(** X9: resetting [n] times in a row asks the engine for [n] reconnections
    and prints "Resetting machine..." [n] times; the engine configuration and
    [engine.output] stay as they were. *)
Theorem ResetMachineCommand_repeated n (w : World) :
  let w' := repeat_handle ResetMachineCommand n w in
  machine_resets w' = machine_resets w + n
  /\ console w' = (console w ++ repeat "Resetting machine..." n)%list
  /\ engine_config w' = engine_config w
  /\ engine_output w' = engine_output w.
Proof.
  cbv zeta. revert w. induction n as [|n IH]; intros w.
  - cbn. rewrite app_nil_r. repeat split. lia.
  - cbn [repeat_handle]. rewrite ResetMachineCommand_run. cbn [snd].
    destruct (IH (reset_machine (emit_line "Resetting machine..." w)))
      as (Hr & Hc & He & Ho).
    rewrite Hr, Hc, He, Ho. cbn. repeat split; [lia|].
    now rewrite <- app_assoc.
Qed.

(** X10: the output toggle, called [n] times in a row, leaves
    [engine.output] as it was when [n] is even and negated when [n] is odd.
    Each call prints one line, and the line names the state the engine is in
    after the call: "Output: Enabled" exactly when [engine.output] is then
    true. *)
Theorem ToggleOutputCommand_repeated :
  (forall n (w : World),
      engine_output (repeat_handle ToggleOutputCommand n w)
      = (if Nat.even n then engine_output w else negb (engine_output w))
      /\ length (console (repeat_handle ToggleOutputCommand n w))
         = length (console w) + n)
  /\ (forall words (w : World),
        let w' := snd (handle ToggleOutputCommand words w) in
        console w'
        = (console w ++ [if engine_output w' then "Output: Enabled"
                         else "Output: Disabled"])%list).
Proof.
  split.
  - intros n. induction n as [n IH] using lt_wf_ind. intros w.
    destruct n as [|[|n]].
    + cbn. split; [reflexivity | lia].
    + cbn [repeat_handle]. rewrite ToggleOutputCommand_run. cbn.
      rewrite length_app. cbn. split; [reflexivity | lia].
    + cbn [repeat_handle]. rewrite !ToggleOutputCommand_run. cbn [snd].
      match goal with
      | |- context [repeat_handle ToggleOutputCommand n ?w2] =>
          destruct (IH n ltac:(lia) w2) as [Ho Hl]
      end.
      rewrite Ho, Hl. cbn. rewrite negb_involutive, !length_app. cbn.
      split; [reflexivity | lia].
  - intros words w. cbv zeta. rewrite ToggleOutputCommand_run. cbn.
    destruct (engine_output w); reflexivity.
Qed.

(** X11: what a pane toggle reports is what it stores.  Whatever the
    toggler does, the tape toggle calls it once, writes the visibility it
    returned under "show_stroke_display", prints "Show tape: True" or
    "Show tape: False" for that same visibility and returns true; every
    other key of the engine configuration keeps its value.  The suggestions
    toggle does the same with "show_suggestions_display". *)
Theorem pane_toggles_report words (w : World) :
  (let r := toggle_tape (layout w) in
   let w' := snd (handle ToggleTapeCommand words w) in
   fst (handle ToggleTapeCommand words w) = Return true
   /\ layout w' = snd r
   /\ engine_config w' !! "show_stroke_display" = Some (VBool (fst r))
   /\ console w' = (console w ++ ["Show tape: " +:+ show_bool (fst r)])%list
   /\ forall k, k <> "show_stroke_display" ->
        engine_config w' !! k = engine_config w !! k)
  /\ (let r := toggle_suggestions (layout w) in
      let w' := snd (handle ToggleSuggestionsCommand words w) in
      fst (handle ToggleSuggestionsCommand words w) = Return true
      /\ layout w' = snd r
      /\ engine_config w' !! "show_suggestions_display" = Some (VBool (fst r))
      /\ console w' = (console w ++ ["Show suggestions: " +:+ show_bool (fst r)])%list
      /\ forall k, k <> "show_suggestions_display" ->
           engine_config w' !! k = engine_config w !! k).
Proof.
  split; cbv zeta.
  - rewrite ToggleTapeCommand_run. cbn. repeat split.
    + rewrite update_lookup. now rewrite decide_True.
    + intros k Hk. rewrite update_lookup. now rewrite decide_False.
  - rewrite ToggleSuggestionsCommand_run. cbn. repeat split.
    + rewrite update_lookup. now rewrite decide_True.
    + intros k Hk. rewrite update_lookup. now rewrite decide_False.
Qed.

(** X12: the options node of a machine.  Every machine setter has exactly
    one child, the options node of its machine; that node has one child per
    declared option, in order, described by
    "setting: <name> - default: <default>"; [handle] of each of these
    children stops with an [AttributeError] for any words, so no option is
    ever written; and for a machine without options the help of the options
    node is its header alone, with result false. *)
Theorem MachineOptionsCommand_structure registry machine_name :
  children_of (MachineSetterCommand registry machine_name)
  = [MachineOptionsCommand registry machine_name]
  /\ map attr_doc (children_of (MachineOptionsCommand registry machine_name))
     = map (fun o => Some ("setting: " +:+ opt_name o +:+ " - default: "
                           +:+ opt_default o))
           (get_option_info registry machine_name)
  /\ (forall child words (w : World),
        In child (children_of (MachineOptionsCommand registry machine_name)) ->
        handle child words w = (Raise (AttributeError "output"), w))
  /\ (forall w : World,
        get_option_info registry machine_name = [] ->
        handle (MachineOptionsCommand registry machine_name) [] w
        = (Return false, emit_lines ["Options"; "-------"] w)).
Proof.
  split; [reflexivity|]. split; [|split].
  - cbn. now rewrite map_map.
  - intros child words w Hin. cbn in Hin. apply in_map_iff in Hin as (o & <- & _).
    reflexivity.
  - intros w Hnone. unfold MachineOptionsCommand. rewrite Hnone. reflexivity.
Qed.

Lemma handle_all_snoc calls call (w : World) :
  handle_all (calls ++ [call]) w
  = snd (handle (fst call) (snd call) (handle_all calls w)).
Proof. unfold handle_all. now rewrite fold_left_app. Qed.

(** X21: commands in sequence.  Over any sequence of calls of [handle], on
    any nodes with any words and whether or not some of them raise, the
    console only grows at its end; an exit request, once made by the exit
    command, stays in place with code 0; and as long as no color command is
    among the calls the config store and the style are never written. *)
Theorem handle_all_keeps calls words (w : World) :
  console w `prefix_of` console (handle_all calls w)
  /\ app_exit (snd (handle ExitCommand words w)) = Some 0%Z
  /\ (app_exit w = Some 0%Z -> app_exit (handle_all calls w) = Some 0%Z)
  /\ (Forall (fun call => class_of (fst call) <> Some cColorCommand) calls ->
      config_store (handle_all calls w) = config_store w
      /\ app_style (handle_all calls w) = app_style w).
Proof.
  split; [|split; [reflexivity|split]].
  - induction calls as [|call calls IH] using rev_ind; [apply prefix_same|].
    rewrite handle_all_snoc.
    destruct (handle_frame (fst call) (snd call) (handle_all calls w)) as (Hc & _).
    now transitivity (console (handle_all calls w)).
  - intros Hexit. induction calls as [|call calls IH] using rev_ind; [exact Hexit|].
    rewrite handle_all_snoc.
    destruct (handle_frame (fst call) (snd call) (handle_all calls w))
      as (_ & He & _).
    destruct (fst call) as [cls name doc subs|odoc option] eqn:Ecall.
    + destruct cls; try (rewrite <- IH; apply He; discriminate). reflexivity.
    + rewrite <- IH. apply He. discriminate.
  - intros Hcalls. induction calls as [|call calls IH] using rev_ind; [now split|].
    apply Forall_app in Hcalls as [Hcalls Hcall].
    apply Forall_inv in Hcall. destruct (IH Hcalls) as [IHs IHa].
    rewrite handle_all_snoc.
    destruct (handle_frame (fst call) (snd call) (handle_all calls w))
      as (_ & _ & Hcol & _).
    destruct (Hcol Hcall) as [Ha Hs]. now rewrite Ha, Hs.
Qed.

End MoreCommandProperties.

(** ** Further properties of the paper tape *)

Section MoreTapeProperties.

Variable wcwidth : ascii -> Z.

Lemma on_config_changed_installed system update (t : Tape) :
  "system_name" ∈ dom update ->
  on_config_changed wcwidth system update t
  = mkTape (Some (glyphs_of system))
      (Some (map (fun k => Py.repeat_char " " (wcwidth k))
                 (list_ascii_of_string (glyphs_of system))))
      (Some (map_img (NUMBERS system)))
      (Some (String.length (glyphs_of system) + 1))
      (buffer t).
Proof. intros Hin. unfold on_config_changed. now rewrite bool_decide_eq_true_2. Qed.

(** X13: a configuration change and the layout.  A change that does not
    mention "system_name" leaves the tape as it is.  One that does replaces
    the whole layout by that of the current system, whatever layout the tape
    had: one filler per glyph, each the blank of the glyph's width, the
    number labels of the system as numeric keys, the width one more than the
    number of glyphs; the rows already in the buffer stay.  A second such
    change under the same system changes nothing more. *)
Theorem on_config_changed_spec system update (t : Tape) :
  ("system_name" ∉ dom update -> on_config_changed wcwidth system update t = t)
  /\ ("system_name" ∈ dom update ->
      let t1 := on_config_changed wcwidth system update t in
      _all_keys t1 = Some (glyphs_of system)
      /\ (exists filler,
            _all_keys_filler t1 = Some filler
            /\ length filler = String.length (glyphs_of system)
            /\ forall i g, String.get i (glyphs_of system) = Some g ->
                 filler !! i = Some (Py.repeat_char " " (wcwidth g)))
      /\ (exists numbers : gset string,
            _numbers t1 = Some numbers
            /\ forall x, x ∈ numbers <-> exists key, NUMBERS system !! key = Some x)
      /\ width t1 = Some (String.length (glyphs_of system) + 1)
      /\ buffer t1 = buffer t
      /\ (forall t0, buffer t0 = buffer t ->
            on_config_changed wcwidth system update t0 = t1)
      /\ (forall update', "system_name" ∈ dom update' ->
            on_config_changed wcwidth system update' t1 = t1)).
Proof.
  split.
  - intros Hout. unfold on_config_changed. now rewrite bool_decide_eq_false_2.
  - intros Hin t1. subst t1. rewrite on_config_changed_installed by exact Hin.
    cbn. split; [reflexivity|]. split; [|split; [|split; [|split; [|split]]]].
    + eexists. split; [reflexivity|]. split.
      * now rewrite length_map, length_list_ascii.
      * intros i g Hg. rewrite list_lookup_fmap, <- get_lookup, Hg. reflexivity.
    + eexists. split; [reflexivity|]. intros x. apply elem_of_map_img.
    + reflexivity.
    + reflexivity.
    + intros t0 Hbuf. rewrite on_config_changed_installed by exact Hin.
      now rewrite Hbuf.
    + intros update' Hin'. now rewrite on_config_changed_installed by exact Hin'.
Qed.

(** What a stroke leaves of the tape: the layout, and the buffer with at
    most one row more. *)
Lemma on_stroked_keeps system steno_keys (t : Tape) :
  let t' := snd (on_stroked system steno_keys t) in
  _all_keys t' = _all_keys t
  /\ _all_keys_filler t' = _all_keys_filler t
  /\ _numbers t' = _numbers t
  /\ width t' = width t
  /\ (buffer t' = buffer t
      \/ exists row, fst (on_stroked system steno_keys t) = Return tt
                     /\ buffer t' = (buffer t ++ [row])%list).
Proof.
  cbv zeta. unfold on_stroked.
  destruct (_all_keys_filler t) as [filler|] eqn:Hf; [|cbn; rewrite Hf; auto 6].
  destruct (any_number t steno_keys) as [numeric|e]; [|cbn; rewrite Hf; auto 6].
  destruct (mark_keys system t _ filler) as [text|e]; [|cbn; rewrite Hf; auto 6].
  cbn. rewrite Hf. repeat split; eauto.
Qed.

Lemma tape_step_keeps (t : Tape) (ev : tape_event) :
  layout_consistent t ->
  layout_consistent (tape_step wcwidth t ev)
  /\ buffer t `prefix_of` buffer (tape_step wcwidth t ev)
  /\ length (buffer (tape_step wcwidth t ev))
     <= length (buffer t) + (if is_stroke ev then 1 else 0).
Proof.
  intros Hok. destruct ev as [system update|system steno_keys]; cbn [tape_step is_stroke].
  - unfold on_config_changed. case_bool_decide.
    + unfold layout_consistent. cbn. rewrite length_map, length_list_ascii.
      repeat split; [reflexivity | lia].
    + repeat split; [exact Hok | reflexivity | lia].
  - destruct (on_stroked_keeps system steno_keys t) as (H1 & H2 & H3 & H4 & Hbuf).
    split; [|split].
    + unfold layout_consistent in *. now rewrite H1, H2, H3, H4.
    + destruct Hbuf as [-> | (row & _ & ->)]; [reflexivity | now apply prefix_app_r].
    + destruct Hbuf as [-> | (row & _ & ->)]; [lia | rewrite length_app; cbn; lia].
Qed.

(** X14: what holds of a tape after any sequence of configuration changes
    and strokes, failed strokes included.  The layout attributes stay either
    all unset or all set with as many fillers as glyphs and the width one
    more; the buffer only grows at its end, rows once appended are never
    changed or removed; and it grows by at most one row per stroke. *)
Theorem tape_run_invariant (events : list tape_event) (t : Tape) :
  layout_consistent t ->
  let t' := tape_run wcwidth events t in
  layout_consistent t'
  /\ buffer t `prefix_of` buffer t'
  /\ length (buffer t') <= length (buffer t) + length (List.filter is_stroke events).
Proof.
  cbv zeta. unfold tape_run. revert t.
  induction events as [|ev events IH]; intros t Hok.
  - cbn. repeat split; [exact Hok | reflexivity | lia].
  - cbn [fold_left].
    destruct (tape_step_keeps t ev Hok) as (Hok1 & Hpre1 & Hlen1).
    destruct (IH _ Hok1) as (Hok2 & Hpre2 & Hlen2).
    split; [exact Hok2|]. split; [now transitivity (buffer (tape_step wcwidth t ev))|].
    cbn [List.filter]. destruct (is_stroke ev); cbn [length]; lia.
Qed.

(** X15: a stroke before the first system change.  As long as the tape has
    no fillers, and so on a fresh tape and after configuration changes that
    do not mention "system_name", [on_stroked] stops with a [TypeError] for
    every stroke, the empty one included, and the tape is unchanged. *)
Theorem on_stroked_before_layout system steno_keys :
  (forall t : Tape,
      _all_keys_filler t = None ->
      on_stroked system steno_keys t = (Raise TypeError, t))
  /\ (forall updates,
        Forall (fun update : gmap string Value => "system_name" ∉ dom update) updates ->
        on_stroked system steno_keys
          (tape_run wcwidth (map (ConfigChanged system) updates) Tape_init)
        = (Raise TypeError, Tape_init)).
Proof.
  assert (Hnone : forall t : Tape, _all_keys_filler t = None ->
                    on_stroked system steno_keys t = (Raise TypeError, t)).
  { intros t Hf. unfold on_stroked. now rewrite Hf. }
  split; [exact Hnone|].
  intros updates Hall.
  assert (Hrun : tape_run wcwidth (map (ConfigChanged system) updates) Tape_init
                 = Tape_init).
  { unfold tape_run. induction Hall as [|update updates Hout _ IH]; [reflexivity|].
    cbn [map fold_left].
    change (tape_step wcwidth Tape_init (ConfigChanged system update))
      with (on_config_changed wcwidth system update Tape_init).
    unfold on_config_changed. rewrite bool_decide_eq_false_2 by exact Hout.
    exact IH. }
  rewrite Hrun. now apply Hnone.
Qed.

(** X16: the empty stroke.  Once a layout is installed, a stroke without
    keys appends the all-blank row, the fillers joined, and does not fail,
    whatever the key order of the system in force. *)
Theorem on_stroked_empty system system' update (t : Tape) :
  "system_name" ∈ dom update ->
  let t1 := on_config_changed wcwidth system update t in
  on_stroked system' [] t1
  = (Return tt,
     output_to_buffer
       (Py.join "" (map (fun k => Py.repeat_char " " (wcwidth k))
                        (list_ascii_of_string (glyphs_of system)))) t1).
Proof.
  intros Hin t1. subst t1. rewrite on_config_changed_installed by exact Hin.
  reflexivity.
Qed.

Lemma mark_keys_one_column system (t : Tape) keys : forall text text',
  mark_keys system t keys text = Return text' ->
  Forall (fun s => String.length s = 1) text ->
  Forall (fun s => String.length s = 1) text' /\ length text' = length text.
Proof.
  induction keys as [|key keys IH]; intros text text' Hrun Hone.
  - cbn in Hrun. injection Hrun as <-. now split.
  - cbn [mark_keys] in Hrun.
    destruct (KEY_ORDER system !! key) as [idx|]; [|discriminate].
    destruct (_all_keys t) as [glyphs|]; [|discriminate].
    destruct (String.get idx glyphs) as [g|]; [|discriminate].
    destruct (decide (idx < length text)); [|discriminate].
    apply IH in Hrun as [Hone' Hlen].
    + split; [exact Hone'|]. now rewrite Hlen, length_insert.
    + apply Forall_insert; [exact Hone | reflexivity].
Qed.

Lemma join_one_column (cells : list string) :
  Forall (fun s => String.length s = 1) cells ->
  String.length (Py.join "" cells) = length cells.
Proof.
  induction 1 as [|s cells Hs _ IH]; [reflexivity|].
  rewrite join_empty_cons. destruct s as [|c [|c' s]]; try discriminate Hs.
  change (String.length (String c "" +:+ Py.join "" cells))
    with (S (String.length (Py.join "" cells))).
  now rewrite IH.
Qed.

(** X17: the width of a row.  When every glyph of the installed layout is
    one column wide, every stroke that succeeds appends one row that has
    exactly as many characters as there are glyphs, one less than the width
    set for the pane. *)
Theorem on_stroked_row_length system update steno_keys (t t' : Tape) :
  "system_name" ∈ dom update ->
  (forall g, In g (list_ascii_of_string (glyphs_of system)) -> wcwidth g = 1%Z) ->
  on_stroked system steno_keys (on_config_changed wcwidth system update t)
  = (Return tt, t') ->
  exists row,
    buffer t' = (buffer t ++ [row])%list
    /\ String.length row = String.length (glyphs_of system)
    /\ width t' = Some (String.length row + 1).
Proof.
  intros Hin Hwide. rewrite on_config_changed_installed by exact Hin.
  unfold on_stroked. cbn [_all_keys_filler].
  set (filler := map _ (list_ascii_of_string (glyphs_of system))).
  destruct (any_number _ steno_keys) as [numeric|e]; [|discriminate].
  destruct (mark_keys system _ _ filler) as [text|e] eqn:Hrun; [|discriminate].
  intros [= <-]. exists (Py.join "" text).
  apply mark_keys_one_column in Hrun as [Hone Hlen].
  - assert (Hrow : String.length (Py.join "" text) = String.length (glyphs_of system)).
    { rewrite join_one_column by exact Hone. rewrite Hlen. unfold filler.
      now rewrite length_map, length_list_ascii. }
    cbn. rewrite Hrow. repeat split.
  - unfold filler. apply Forall_forall. intros s Hs.
    apply list_elem_of_In, in_map_iff in Hs as (g & <- & Hg).
    now rewrite (Hwide g Hg).
Qed.

Lemma existsb_same_elements {A} (f : A -> bool) (l1 l2 : list A) :
  (forall x, In x l1 <-> In x l2) -> existsb f l1 = existsb f l2.
Proof.
  intros Hsame. apply eq_true_iff_eq. rewrite !existsb_exists.
  split; intros (x & Hx & Hf); exists x; split; try exact Hf; now apply Hsame.
Qed.

Lemma engaged_same_elements (numbers : gset string) (keys1 keys2 : list string) :
  (forall k, In k keys1 <-> In k keys2) ->
  forall k, In k (engaged_keys numbers keys1) <-> In k (engaged_keys numbers keys2).
Proof.
  intros Hsame k. unfold engaged_keys.
  rewrite (existsb_same_elements _ keys1 keys2 Hsame).
  destruct (existsb _ keys2); [|apply Hsame].
  rewrite !in_app_iff, Hsame. reflexivity.
Qed.

(** X18: a row depends only on which keys are engaged.  On an installed
    layout, two strokes with the same keys, in any order and with any
    repetitions, give the same result when the keys of the first (with "#"
    when a number label is among them) all have a position in the row. *)
Theorem on_stroked_order_irrelevant system update keys1 keys2 (t : Tape) :
  "system_name" ∈ dom update ->
  (forall k, In k keys1 <-> In k keys2) ->
  let t1 := on_config_changed wcwidth system update t in
  Forall (in_row system (glyphs_of system))
         (engaged_keys (map_img (NUMBERS system)) keys1) ->
  on_stroked system keys1 t1 = on_stroked system keys2 t1.
Proof.
  intros Hin Hsame t1 Hkeys1. subst t1.
  rewrite on_config_changed_installed by exact Hin.
  set (glyphs := glyphs_of system) in *.
  set (numbers := map_img (NUMBERS system) : gset string) in *.
  set (t1 := mkTape _ _ _ _ _).
  assert (Hkeys2 : Forall (in_row system glyphs) (engaged_keys numbers keys2)).
  { rewrite List.Forall_forall in *. intros k Hk. apply Hkeys1.
    now apply (engaged_same_elements numbers keys1 keys2 Hsame). }
  destruct (on_stroked_installed wcwidth system t1 glyphs numbers keys1)
    as (cells1 & -> & Hlen1 & Hcells1); try reflexivity; [exact Hkeys1|].
  destruct (on_stroked_installed wcwidth system t1 glyphs numbers keys2)
    as (cells2 & -> & Hlen2 & Hcells2); try reflexivity; [exact Hkeys2|].
  assert (Hcells : cells1 = cells2); [|now rewrite Hcells].
  apply list_eq. intros i.
  destruct (String.get i glyphs) as [g|] eqn:Hg.
  - rewrite (Hcells1 i g Hg), (Hcells2 i g Hg). unfold is_marked.
    now rewrite (existsb_same_elements _ _ _
                   (engaged_same_elements numbers keys1 keys2 Hsame)).
  - rewrite get_lookup in Hg. apply lookup_ge_None in Hg.
    rewrite length_list_ascii in Hg.
    rewrite (proj2 (lookup_ge_None cells1 i)) by lia.
    now rewrite (proj2 (lookup_ge_None cells2 i)) by lia.
Qed.

Lemma mark_keys_app system (t : Tape) pre rest : forall text,
  mark_keys system t (pre ++ rest) text
  = match mark_keys system t pre text with
    | Return text' => mark_keys system t rest text'
    | Raise e => Raise e
    end.
Proof.
  induction pre as [|key pre IH]; intros text; [reflexivity|].
  cbn [app mark_keys].
  destruct (KEY_ORDER system !! key); [|reflexivity].
  destruct (_all_keys t) as [glyphs|]; [|reflexivity].
  destruct (String.get _ glyphs); [|reflexivity].
  destruct (decide _); [apply IH | reflexivity].
Qed.

(** X19: which error a failing stroke raises.  On a tape that holds a
    layout, when the keys in front of some key (of the stroke, or the "#"
    added to it) all have a position in the row, the stroke fails at that key:
    with a [KeyError] naming the key when it has no index, with an
    [IndexError] when its index lies beyond the glyphs.  Either way the tape
    is unchanged. *)
Theorem on_stroked_first_failure system steno_keys (t : Tape)
    glyphs filler numbers pre key post :
  _all_keys t = Some glyphs ->
  _all_keys_filler t = Some filler ->
  length filler = String.length glyphs ->
  _numbers t = Some numbers ->
  engaged_keys numbers steno_keys = (pre ++ key :: post)%list ->
  Forall (in_row system glyphs) pre ->
  (KEY_ORDER system !! key = None ->
   on_stroked system steno_keys t = (Raise (KeyError key), t))
  /\ (forall i, KEY_ORDER system !! key = Some i -> String.length glyphs <= i ->
      on_stroked system steno_keys t = (Raise IndexError, t)).
Proof.
  intros Hall Hfill Hlen Hnum Hsplit Hpre.
  destruct (mark_keys_marks system t glyphs pre filler Hall Hlen Hpre)
    as (text' & Hrun & Hlen' & _).
  assert (Hloop : mark_keys system t (engaged_keys numbers steno_keys) filler
                  = mark_keys system t (key :: post) text').
  { now rewrite Hsplit, mark_keys_app, Hrun. }
  assert (Hstroke : on_stroked system steno_keys t
                    = match mark_keys system t (key :: post) text' with
                      | Raise e => (Raise e, t)
                      | Return text => (Return tt, output_to_buffer (Py.join "" text) t)
                      end).
  { unfold on_stroked. rewrite Hfill.
    rewrite (any_number_installed t numbers) by exact Hnum.
    rewrite <- Hloop. unfold engaged_keys. now destruct (existsb _ steno_keys). }
  rewrite Hstroke. cbn [mark_keys]. split.
  - intros ->. reflexivity.
  - intros i -> Hbig. rewrite Hall.
    destruct (String.get i glyphs) as [g|] eqn:Hg; [|reflexivity].
    exfalso. rewrite get_lookup in Hg. apply lookup_lt_Some in Hg.
    rewrite length_list_ascii in Hg. lia.
Qed.

Lemma join_get_one_column (cells : list string) : forall i,
  Forall (fun s => String.length s = 1) cells ->
  String.get i (Py.join "" cells)
  = match cells !! i with
    | Some (String g _) => Some g
    | _ => None
    end.
Proof.
  induction cells as [|s cells IH]; intros i Hone; [now destruct i|].
  inversion Hone as [|? ? Hs Hrest]; subst.
  rewrite join_empty_cons. destruct s as [|c [|c' s]]; try discriminate Hs.
  destruct i as [|i]; [reflexivity|].
  change (String.get (S i) (String c "" +:+ Py.join "" cells))
    with (String.get i (Py.join "" cells)).
  now apply IH.
Qed.

(** X20: glyphs and keys line up when every key name is one character
    between dashes.  If stripping the dashes leaves exactly one character of
    each key name, there are as many glyphs as keys, the glyph at a position
    is the character of the key declared at that position, and a system
    change sets the width to the number of keys plus one. *)
Theorem glyphs_follow_keys system update (t : Tape) :
  Forall (fun key => String.length (Py.strip "-" key) = 1) (KEYS system) ->
  String.length (glyphs_of system) = length (KEYS system)
  /\ (forall i key, KEYS system !! i = Some key ->
        exists g, Py.strip "-" key = String g ""
                  /\ String.get i (glyphs_of system) = Some g)
  /\ ("system_name" ∈ dom update ->
      width (on_config_changed wcwidth system update t)
      = Some (length (KEYS system) + 1)).
Proof.
  intros Hone.
  assert (Hone' : Forall (fun s => String.length s = 1)
                         (map (Py.strip "-") (KEYS system))).
  { apply List.Forall_map. exact Hone. }
  assert (Hlen : String.length (glyphs_of system) = length (KEYS system)).
  { unfold glyphs_of. rewrite join_one_column by exact Hone'. apply length_map. }
  split; [exact Hlen|]. split.
  - intros i key Hkey. unfold glyphs_of.
    rewrite join_get_one_column by exact Hone'.
    change (map (Py.strip "-") (KEYS system)) with (Py.strip "-" <$> KEYS system).
    rewrite list_lookup_fmap, Hkey. cbn.
    rewrite List.Forall_forall in Hone.
    assert (Hk : String.length (Py.strip "-" key) = 1).
    { apply Hone. apply list_elem_of_In. eapply list_elem_of_lookup_2. exact Hkey. }
    destruct (Py.strip "-" key) as [|g [|g' s]]; try discriminate Hk.
    exists g. now split.
  - intros Hin. rewrite on_config_changed_installed by exact Hin. cbn.
    now rewrite Hlen.
Qed.

End MoreTapeProperties.

(** ** The further statements on concrete inputs *)

Lemma Command_handle_help_witness :
  handle (Node cMachineOptionsCommand (Some "options") (Some "machine options")
            [MachineOptionSetterCommand {| opt_name := "port"; opt_default := "COM1" |}])
    [] sample_world
  = (Raise (AttributeError "name"), emit_lines ["Options"; "-------"] sample_world)
  /\ forall words,
       fst (handle (Node cMachineOptionsCommand (Some "options") (Some "machine options")
                      [MachineOptionSetterCommand
                         {| opt_name := "port"; opt_default := "COM1" |}])
              words sample_world) <> Return true.
Proof.
  apply (Command_handle_help (H := sample_host) cMachineOptionsCommand
           (Some "options") (Some "machine options")
           [MachineOptionSetterCommand {| opt_name := "port"; opt_default := "COM1" |}]
           sample_world).
  reflexivity.
Defined.

Lemma handle_footprint_witness :
  let w' := snd (handle ColorCommand ["green"] sample_world) in
  console sample_world `prefix_of` console w'
  /\ app_exit w' = app_exit sample_world
  /\ machine_resets w' = machine_resets sample_world
  /\ engine_output w' = engine_output sample_world
  /\ layout w' = layout sample_world
  /\ engine_config w' = engine_config sample_world.
Proof.
  destruct (handle_footprint (H := sample_host) ColorCommand ["green"] sample_world)
    as (Hc & He & _ & Hr & Ho & Hl & Hcfg).
  split; [exact Hc|]. split; [apply He; discriminate|].
  split; [apply Hr; discriminate|]. split; [apply Ho; discriminate|].
  split; [apply Hl; discriminate | apply Hcfg; discriminate].
Defined.

Lemma handle_ignores_words_witness :
  handle ExitCommand ["now"; "please"] sample_world = handle ExitCommand [] sample_world.
Proof.
  apply (proj1 (handle_ignores_words (H := sample_host))). reflexivity.
Defined.

Lemma setters_on_config_witness :
  engine_config (snd (handle (SystemSetterCommand "English Stenotype") [] sample_world))
    !! "machine_type"
  = engine_config sample_world !! "machine_type".
Proof.
  destruct (setters_on_config (H := sample_host) sample_registry
              "English Stenotype" "Other" "A" [] [] sample_world)
    as (_ & _ & Hframe & _).
  apply Hframe. discriminate.
Defined.

Lemma ColorCommand_sequence_witness :
  let w1 := snd (handle ColorCommand ["green"] sample_world) in
  handle ColorCommand ["grene"] w1 = (Raise (InvalidColor "grene"), w1)
  /\ config_store w1 !! "fg" = Some "green"
  /\ app_style w1 = "fg:green".
Proof.
  destruct (ColorCommand_sequence (H := sample_host) "green" "grene" "fg:green"
              sample_world eq_refl) as (_ & Hbad & _).
  apply Hbad. reflexivity.
Defined.

Lemma pane_toggles_report_witness :
  engine_config (snd (handle ToggleTapeCommand [] sample_world))
    !! "show_suggestions_display"
  = engine_config sample_world !! "show_suggestions_display".
Proof.
  destruct (pane_toggles_report (H := sample_host) [] sample_world)
    as ((_ & _ & _ & _ & Hframe) & _).
  apply Hframe. discriminate.
Defined.

Lemma MachineOptionsCommand_structure_witness :
  handle (MachineOptionSetterCommand {| opt_name := "port"; opt_default := "COM1" |})
    ["COM3"] sample_world
  = (Raise (AttributeError "output"), sample_world)
  /\ handle (MachineOptionsCommand sample_registry "B") [] sample_world
     = (Return false, emit_lines ["Options"; "-------"] sample_world).
Proof.
  destruct (MachineOptionsCommand_structure (H := sample_host) sample_registry "A")
    as (_ & _ & Hchild & _).
  destruct (MachineOptionsCommand_structure (H := sample_host) sample_registry "B")
    as (_ & _ & _ & Hnone).
  split.
  - apply Hchild. left. reflexivity.
  - apply Hnone. reflexivity.
Defined.

Lemma sample_update_names_system : "system_name" ∈ dom sample_update.
Proof. apply elem_of_dom. eexists. apply lookup_singleton_eq. Defined.

Lemma on_config_changed_spec_witness :
  on_config_changed ascii_wcwidth sample_system {[ "machine_type" := VStr "A" ]} Tape_init
  = Tape_init
  /\ width (on_config_changed ascii_wcwidth sample_system sample_update Tape_init)
     = Some (String.length (glyphs_of sample_system) + 1).
Proof.
  destruct (on_config_changed_spec ascii_wcwidth sample_system
              {[ "machine_type" := VStr "A" ]} Tape_init) as [Hout _].
  destruct (on_config_changed_spec ascii_wcwidth sample_system sample_update Tape_init)
    as [_ Hin].
  split.
  - apply Hout. apply not_elem_of_dom_2. vm_compute. reflexivity.
  - apply (Hin sample_update_names_system).
Defined.

Lemma tape_run_invariant_witness :
  let events := [ Stroked sample_system ["S-"];
                  ConfigChanged sample_system sample_update;
                  Stroked sample_system ["S-"; "#"];
                  Stroked sample_system ["Z-"] ] in
  let t' := tape_run ascii_wcwidth events Tape_init in
  layout_consistent t'
  /\ buffer Tape_init `prefix_of` buffer t'
  /\ length (buffer t') <= length (buffer Tape_init) + length (List.filter is_stroke events).
Proof.
  apply (tape_run_invariant ascii_wcwidth
           [ Stroked sample_system ["S-"];
             ConfigChanged sample_system sample_update;
             Stroked sample_system ["S-"; "#"];
             Stroked sample_system ["Z-"] ] Tape_init).
  exact I.
Defined.

Lemma on_stroked_before_layout_witness :
  on_stroked sample_system ["S-"] Tape_init = (Raise TypeError, Tape_init).
Proof.
  apply (proj1 (on_stroked_before_layout ascii_wcwidth sample_system ["S-"])).
  reflexivity.
Defined.

Lemma on_stroked_empty_witness :
  let t1 := on_config_changed ascii_wcwidth sample_system sample_update Tape_init in
  on_stroked barless_system [] t1
  = (Return tt,
     output_to_buffer
       (Py.join "" (map (fun k => Py.repeat_char " " (ascii_wcwidth k))
                        (list_ascii_of_string (glyphs_of sample_system)))) t1).
Proof.
  apply (on_stroked_empty ascii_wcwidth sample_system barless_system sample_update
           Tape_init sample_update_names_system).
Defined.

Lemma on_stroked_row_length_witness :
  let t1 := on_config_changed ascii_wcwidth sample_system sample_update Tape_init in
  let t' := snd (on_stroked sample_system ["T-"] t1) in
  exists row,
    buffer t' = (buffer Tape_init ++ [row])%list
    /\ String.length row = String.length (glyphs_of sample_system)
    /\ width t' = Some (String.length row + 1).
Proof.
  apply (on_stroked_row_length ascii_wcwidth sample_system sample_update ["T-"] Tape_init).
  - exact sample_update_names_system.
  - intros g Hg. cbn in Hg.
    destruct Hg as [<-|[<-|[<-|[<-|[]]]]]; reflexivity.
  - vm_compute. reflexivity.
Defined.

Lemma on_stroked_order_irrelevant_witness :
  let t1 := on_config_changed ascii_wcwidth sample_system sample_update Tape_init in
  on_stroked sample_system ["S-"; "#"] t1 = on_stroked sample_system ["#"; "S-"; "S-"] t1.
Proof.
  apply (on_stroked_order_irrelevant ascii_wcwidth sample_system sample_update
           ["S-"; "#"] ["#"; "S-"; "S-"] Tape_init).
  - exact sample_update_names_system.
  - intros k. cbn. tauto.
  - vm_compute engaged_keys. repeat constructor.
    + exists 0. split; [reflexivity | vm_compute; lia].
    + exists 2. split; [reflexivity | vm_compute; lia].
Defined.

Lemma on_stroked_first_failure_witness :
  let t1 := on_config_changed ascii_wcwidth sample_system sample_update Tape_init in
  on_stroked sample_system ["S-"; "Z-"] t1 = (Raise (KeyError "Z-"), t1).
Proof.
  intros t1.
  destruct (on_stroked_first_failure sample_system ["S-"; "Z-"] t1
              (glyphs_of sample_system)
              (map (fun k => Py.repeat_char " " (ascii_wcwidth k))
                   (list_ascii_of_string (glyphs_of sample_system)))
              (map_img (NUMBERS sample_system))
              ["S-"] "Z-" []) as [Hkey _].
  - reflexivity.
  - reflexivity.
  - vm_compute. reflexivity.
  - reflexivity.
  - vm_compute. reflexivity.
  - repeat constructor. exists 0. split; [reflexivity | vm_compute; lia].
  - apply Hkey. reflexivity.
Defined.

Lemma glyphs_follow_keys_witness :
  String.length (glyphs_of sample_system) = length (KEYS sample_system)
  /\ width (on_config_changed ascii_wcwidth sample_system sample_update Tape_init)
     = Some (length (KEYS sample_system) + 1).
Proof.
  destruct (glyphs_follow_keys ascii_wcwidth sample_system sample_update Tape_init)
    as (Hlen & _ & Hwidth).
  - repeat constructor.
  - split; [exact Hlen | exact (Hwidth sample_update_names_system)].
Defined.

Lemma handle_all_keeps_witness :
  app_exit (handle_all [ (LookupCommand, ["plover"]); (ToggleOutputCommand, []) ]
              (snd (handle ExitCommand [] sample_world)))
  = Some 0%Z
  /\ config_store (handle_all [ (LookupCommand, ["plover"]); (ToggleOutputCommand, []) ]
                     sample_world)
     = config_store sample_world.
Proof.
  split.
  - apply (proj1 (proj2 (proj2 (handle_all_keeps (H := sample_host)
             [ (LookupCommand, ["plover"]); (ToggleOutputCommand, []) ] []
             (snd (handle ExitCommand [] sample_world)))))).
    reflexivity.
  - apply (proj2 (proj2 (proj2 (handle_all_keeps (H := sample_host)
             [ (LookupCommand, ["plover"]); (ToggleOutputCommand, []) ] []
             sample_world)))).
    repeat constructor; discriminate.
Defined.
